(** * Analytics dashboard: a shallow embedding of the aggregation logic

    The development follows the TypeScript sources of the form-funnel
    admin panel:

    - [AdminUtils]        app/utils/adminUtils.ts
    - [AnalyticsQueries]  utils/analyticsQueries.ts (the query layer)
    - [SessionsPage]      app/admin/sessions/page.tsx
    - [Recorder]          utils/analytics.ts (class FormAnalytics)

    Conventions of the embedding.

    - A JavaScript [number] that holds a count, a step index or a whole
      number of seconds is an integer [Z]; the recorder only ever stores
      [Math.round] values and array indices there.
    - A JavaScript [number] that is an argument or a result of a division
      is a [number] below: an exact rational, one of the two infinities, or
      NaN.  Rounding to binary64 and the sign of zero are not represented.
    - Objects used as dictionaries are [gmap]s; arrays are lists; a value
      that may be [undefined] is an [option].
    - Strings are sequences of 8-bit characters; case folding is the ASCII
      one. *)

From Stdlib Require Import Ascii String QArith Qcanon DecimalString.
From stdpp Require Import gmap strings list fin_maps numbers sorting.

Open Scope Z_scope.

(** ** JavaScript numbers *)

Module JsNumber.

Inductive number :=
| Num (q : Qc)
| PosInf
| NegInf
| NaN.

Definition Qc_of_Z (z : Z) : Qc := Q2Qc (inject_Z z).

Definition of_Z (z : Z) : number := Num (Qc_of_Z z).

Definition zero : number := of_Z 0.
Definition hundred : number := of_Z 100.

(** Unary minus. *)
Definition neg (a : number) : number :=
  match a with
  | Num q => Num (- q)%Qc
  | PosInf => NegInf
  | NegInf => PosInf
  | NaN => NaN
  end.

(** [a + b]. *)
Definition add (a b : number) : number :=
  match a, b with
  | NaN, _ | _, NaN => NaN
  | Num x, Num y => Num (x + y)%Qc
  | PosInf, NegInf | NegInf, PosInf => NaN
  | PosInf, _ | _, PosInf => PosInf
  | NegInf, _ | _, NegInf => NegInf
  end.

(** [a - b]. *)
Definition sub (a b : number) : number := add a (neg b).

(** The infinity that has the sign of [q] when [pos] is true and the
    opposite sign otherwise; NaN for [q = 0]. *)
Definition signed_inf (pos : bool) (q : Qc) : number :=
  if decide (q = 0%Qc) then NaN
  else if bool_decide (0 < q)%Qc then (if pos then PosInf else NegInf)
  else (if pos then NegInf else PosInf).

(** [a * b]. *)
Definition mul (a b : number) : number :=
  match a, b with
  | NaN, _ | _, NaN => NaN
  | Num x, Num y => Num (x * y)%Qc
  | Num x, PosInf | PosInf, Num x => signed_inf true x
  | Num x, NegInf | NegInf, Num x => signed_inf false x
  | PosInf, PosInf | NegInf, NegInf => PosInf
  | PosInf, NegInf | NegInf, PosInf => NegInf
  end.

(** [a / b].  A finite non-zero numerator over zero is an infinity (the
    zero is taken to be positive), [0 / 0] is NaN. *)
Definition div (a b : number) : number :=
  match a, b with
  | NaN, _ | _, NaN => NaN
  | Num x, Num y =>
      if decide (y = 0%Qc) then signed_inf true x else Num (x / y)%Qc
  | Num _, (PosInf | NegInf) => zero
  | PosInf, Num y => if bool_decide (y < 0)%Qc then NegInf else PosInf
  | NegInf, Num y => if bool_decide (y < 0)%Qc then PosInf else NegInf
  | (PosInf | NegInf), (PosInf | NegInf) => NaN
  end.

(** [a === b]: NaN is equal to nothing. *)
Definition strict_eq (a b : number) : bool :=
  match a, b with
  | Num x, Num y => bool_decide (x = y)
  | PosInf, PosInf | NegInf, NegInf => true
  | _, _ => false
  end.

(** [a > b]: false as soon as one side is NaN. *)
Definition gt (a b : number) : bool :=
  match a, b with
  | NaN, _ | _, NaN => false
  | Num x, Num y => bool_decide (y < x)%Qc
  | PosInf, (Num _ | NegInf) => true
  | Num _, NegInf => true
  | _, _ => false
  end.

(** A finite number, as opposed to NaN and the infinities. *)
Definition is_finite (a : number) : bool :=
  match a with Num _ => true | _ => false end.

End JsNumber.

Import JsNumber.

(** ** JavaScript strings and arrays *)

Module JsString.

(** [`${n}`] for a whole number [n]: its decimal digits. *)
Definition Z_to_string (z : Z) : string := NilZero.string_of_int (Z.to_int z).

(** The double quote and the line feed. *)
Definition dquote : ascii := "034"%char.
Definition newline : ascii := "010"%char.

Definition lower_ascii (c : ascii) : ascii :=
  let n := nat_of_ascii c in
  if ((65 <=? n) && (n <=? 90))%nat then ascii_of_nat (n + 32) else c.

(** [s.toLowerCase()]. *)
Fixpoint toLowerCase (s : string) : string :=
  match s with
  | EmptyString => EmptyString
  | String c s' => String (lower_ascii c) (toLowerCase s')
  end.

(** [s.includes(sub)]: [sub] occurs somewhere in [s]. *)
Fixpoint includes (s sub : string) : bool :=
  String.prefix sub s ||
  match s with
  | EmptyString => false
  | String _ s' => includes s' sub
  end.

(** [/w1|w2|.../i.test(s)] for literal words [w1], [w2], ... *)
Definition test_i (words : list string) (s : string) : bool :=
  existsb (fun w => includes (toLowerCase s) (toLowerCase w)) words.

(** [s.replace] with the global pattern that matches one double quote
    and the replacement text made of two. *)
Fixpoint double_quotes (s : string) : string :=
  match s with
  | EmptyString => EmptyString
  | String c s' =>
      if Ascii.eqb c dquote
      then String c (String c (double_quotes s'))
      else String c (double_quotes s')
  end.

(** [xs.join(sep)] on an array of strings. *)
Definition join (sep : string) (xs : list string) : string :=
  String.concat sep xs.

End JsString.

Import JsString.

Module JsArray.

(** [xs.sort(comparefn)].  The language fixes the result for a consistent
    comparator: a sorted permutation in which elements that compare equal
    keep their order (the sort is stable).  Insertion from the right
    computes it: [x] precedes every element of the tail in the input, so
    it moves right only past elements it is greater than.  A comparator
    result that is NaN counts as zero. *)
Section Sort.
Context {A : Type} (comparefn : A → A → number).

Fixpoint insert (x : A) (l : list A) : list A :=
  match l with
  | [] => [x]
  | y :: l' =>
      if gt (comparefn x y) zero then y :: insert x l' else x :: y :: l'
  end.

Fixpoint sort (l : list A) : list A :=
  match l with
  | [] => []
  | x :: l' => insert x (sort l')
  end.
End Sort.

End JsArray.

(** ** app/utils/adminUtils.ts *)

Module AdminUtils.

(** [formatTime(seconds)].  [Math.floor(x / 60)] is the floor division
    and [%] the remainder that takes the sign of the dividend. *)
Definition formatTime (seconds : Z) : string :=
  if seconds <? 60 then
    Z_to_string seconds +:+ "s"
  else
    let minutes := seconds / 60 in
    let remainingSeconds := Z.rem seconds 60 in
    if minutes <? 60 then
      Z_to_string minutes +:+ "m " +:+ Z_to_string remainingSeconds +:+ "s"
    else
      let hours := minutes / 60 in
      let remainingMinutes := Z.rem minutes 60 in
      Z_to_string hours +:+ "h " +:+ Z_to_string remainingMinutes +:+ "m".

Inductive DeviceType := desktop | mobile | tablet.

Record UserAgentInfo := {
  deviceType : DeviceType;
  browser : string;
  os : string;
}.

Definition parseUserAgent (userAgent : string) : UserAgentInfo :=
  let isMobile := test_i ["Mobile"; "Android"; "iPhone"; "iPad"] userAgent in
  let isTablet := test_i ["iPad"; "Tablet"] userAgent in
  let deviceType :=
    if isTablet then tablet else if isMobile then mobile else desktop in
  let browser :=
    if includes userAgent "Chrome" then "Chrome"
    else if includes userAgent "Firefox" then "Firefox"
    else if includes userAgent "Safari" && negb (includes userAgent "Chrome")
         then "Safari"
    else if includes userAgent "Edge" then "Edge"
    else if includes userAgent "Opera" then "Opera"
    else "Unknown" in
  let os :=
    if includes userAgent "Windows NT 10" then "Windows 10"
    else if includes userAgent "Windows NT 6.3" then "Windows 8.1"
    else if includes userAgent "Windows NT 6.1" then "Windows 7"
    else if includes userAgent "Windows" then "Windows"
    else if includes userAgent "Mac OS X" then "macOS"
    else if includes userAgent "Linux" then "Linux"
    else if includes userAgent "Android" then "Android"
    else if includes userAgent "iPhone OS" || includes userAgent "iOS"
         then "iOS"
    else "Unknown" in
  {| deviceType := deviceType; browser := browser; os := os |}.

Definition getConversionRate (completed total : number) : number :=
  if strict_eq total zero then zero
  else mul (div completed total) hundred.

Definition getDropOffRate (exits entrances : number) : number :=
  if strict_eq entrances zero then zero
  else mul (div exits entrances) hundred.

(** *** CSV export *)

(** The values a row holds: the JSON scalars, and [undefined]. *)
Inductive value :=
| VString (s : string)
| VNumber (z : Z)
| VBoolean (b : bool)
| VNull
| VUndefined.

(** A row object: its own properties in enumeration order. *)
Definition row := list (string * value).

Definition Object_keys (r : row) : list string := map fst r.

(** [r[key]]. *)
Fixpoint get (r : row) (key : string) : value :=
  match r with
  | [] => VUndefined
  | (k, v) :: r' => if String.eqb k key then v else get r' key
  end.

(** How [Array.prototype.join] renders an element: [null] and
    [undefined] as the empty string, anything else by [String]. *)
Definition join_item (v : value) : string :=
  match v with
  | VString s => s
  | VNumber z => Z_to_string z
  | VBoolean true => "true"
  | VBoolean false => "false"
  | VNull | VUndefined => EmptyString
  end.

(** The callback of the inner [headers.map]. *)
Definition cell (value : value) : AdminUtils.value :=
  match value with
  | VString s =>
      if includes s "," || includes s (String dquote EmptyString)
      then VString (String dquote (double_quotes s +:+ String dquote EmptyString))
      else value
  | _ => value
  end.

(** The callback of [data.map]: one line of the file. *)
Definition csvRow (headers : list string) (row : row) : string :=
  join "," (map (λ header, join_item (cell (get row header))) headers).

Definition csvContent (data : list row) : string :=
  let headers := Object_keys (default [] (head data)) in
  join (String newline EmptyString)
    (join "," headers :: map (csvRow headers) data).

(** What the browser is asked to do. *)
Inductive effect :=
| NewBlob (content mimeType : string)
| CreateObjectURL
| CreateElement (tag : string)
| SetHref
| SetDownload (name : string)
| Click
| RevokeObjectURL.

(** [exportToCSV(data, filename)]; [today] is
    [format(new Date(), 'yyyy-MM-dd')]. *)
Definition exportToCSV (today : string) (data : list row) (filename : string)
  : list effect :=
  if (length data =? 0)%nat then []
  else
    [ NewBlob (csvContent data) "text/csv";
      CreateObjectURL;
      CreateElement "a";
      SetHref;
      SetDownload (filename +:+ "-" +:+ today +:+ ".csv");
      Click;
      RevokeObjectURL ].

#[global] Instance DeviceType_eq_dec : EqDecision DeviceType.
Proof. solve_decision. Defined.

(** *** The other helpers *)

(** [calculatePercentChange(current, previous)]. *)
Definition calculatePercentChange (current previous : number) : number :=
  if strict_eq previous zero then (if gt current zero then hundred else zero)
  else mul (div (sub current previous) previous) hundred.

(** [text.substring(0, n)]: a negative [n] counts as 0 and one beyond the
    end as the length. *)
Definition substring0 (n : Z) (text : string) : string :=
  String.substring 0 (Z.to_nat n) text.

(** [truncateText(text, maxLength)] for a whole number [maxLength]. *)
Definition truncateText (text : string) (maxLength : Z) : string :=
  if Z.of_nat (String.length text) <=? maxLength then text
  else substring0 maxLength text +:+ "...".

Inductive Direction := dir_asc | dir_desc.

(** [sortBy(array, key, direction)], for a property [key] that holds whole
    numbers.  The array is copied before it is sorted. *)
Definition sortBy {T : Type} (array : list T) (key : T → Z) (direction : Direction)
  : list T :=
  JsArray.sort
    (λ a b,
       let aVal := key a in
       let bVal := key b in
       if aVal <? bVal then
         match direction with dir_asc => of_Z (-1) | dir_desc => of_Z 1 end
       else if aVal >? bVal then
         match direction with dir_asc => of_Z 1 | dir_desc => of_Z (-1) end
       else zero)
    array.

(** The properties every object literal inherits from [Object.prototype].
    Each of them holds a function or an object, which is truthy and has no
    [push]. *)
Definition Object_prototype_names : list string :=
  [ "constructor"; "__defineGetter__"; "__defineSetter__"; "hasOwnProperty";
    "__lookupGetter__"; "__lookupSetter__"; "isPrototypeOf";
    "propertyIsEnumerable"; "toString"; "valueOf"; "__proto__";
    "toLocaleString" ].

(** The callback of [array.reduce] in [groupBy]; [None] stands for the
    [TypeError] of calling [push] on an inherited property.  [key] is
    [String(item[key])]. *)
Definition addToGroup {T : Type} (key : T → string)
    (groups : option (gmap string (list T))) (item : T)
  : option (gmap string (list T)) :=
  match groups with
  | None => None
  | Some groups =>
      let group := key item in
      match groups !! group with
      | Some members => Some (<[group := members ++ [item]]> groups)
      | None =>
          if bool_decide (group ∈ Object_prototype_names) then None
          else Some (<[group := [item]]> groups)
      end
  end.

(** [groupBy(array, key)]. *)
Definition groupBy {T : Type} (array : list T) (key : T → string)
  : option (gmap string (list T)) :=
  foldl (addToGroup key) (Some ∅) array.

End AdminUtils.

(** ** app/types/analytics.ts *)

Module Types.

Inductive ExitReason := abandoned | completed | ineligible.

Inductive Action := enter | answer | exit.

#[global] Instance Action_eq_dec : EqDecision Action.
Proof. solve_decision. Defined.

#[global] Instance ExitReason_eq_dec : EqDecision ExitReason.
Proof. solve_decision. Defined.

Definition ExitReason_to_string (r : ExitReason) : string :=
  match r with
  | abandoned => "abandoned"
  | completed => "completed"
  | ineligible => "ineligible"
  end.

(** [createdAt], [updatedAt]: the sentinel the client writes, or the time
    the server put in its place (milliseconds). *)
Inductive Timestamp := serverTimestamp | TimestampAt (ms : Z).

Module UserSession.
Record t := {
  id : option string;
  sessionId : string;
  timestamp : string;
  userAgent : string;
  currentStep : option Z;
  formData : list (string * AdminUtils.value);
  timeSpent : option Z;
  exitReason : option ExitReason;
  createdAt : Timestamp;
  updatedAt : Timestamp;
}.
End UserSession.

Module StepAnalytics.
Record t := {
  id : option string;
  sessionId : string;
  step : Z;
  stepName : string;
  action : Action;
  timestamp : string;
  answer : option AdminUtils.value;
  timeSpent : option Z;
  exitReason : option ExitReason;
  createdAt : Timestamp;
}.
End StepAnalytics.

Module AnalyticsSummary.
Record t := {
  totalSessions : Z;
  completedSessions : Z;
  abandonedSessions : Z;
  averageTimeSpent : number;
  conversionRate : number;
  dropOffByStep : gmap Z Z;
}.
End AnalyticsSummary.

Module StepStats.
Record t := {
  stepNumber : Z;
  stepName : string;
  entrances : Z;
  exits : Z;
  averageTimeSpent : number;
  dropOffRate : number;
}.
End StepStats.

End Types.

Import Types.

(** ** utils/analyticsQueries.ts *)

Module AnalyticsQueries.

Definition ExitReason_eqb (a : option ExitReason) (b : ExitReason) : bool :=
  match a, b with
  | Some abandoned, abandoned
  | Some completed, completed
  | Some ineligible, ineligible => true
  | _, _ => false
  end.

Definition array_length {A} (xs : list A) : Z := Z.of_nat (length xs).

(** The callback of [sessions.forEach] that fills [dropOffByStep]. *)
Definition countDropOff (dropOffByStep : gmap Z Z) (session : UserSession.t)
  : gmap Z Z :=
  match UserSession.currentStep session with
  | Some currentStep =>
      if ExitReason_eqb (UserSession.exitReason session) abandoned
      then <[currentStep := default 0 (dropOffByStep !! currentStep) + 1]> dropOffByStep
      else dropOffByStep
  | None => dropOffByStep
  end.

(** [getAnalyticsSummary], from the documents the store returned. *)
Definition getAnalyticsSummary (sessions : list UserSession.t)
  : AnalyticsSummary.t :=
  let totalSessions := array_length sessions in
  let completedSessions :=
    array_length
      (filter (λ s, ExitReason_eqb (UserSession.exitReason s) completed = true) sessions) in
  let abandonedSessions :=
    array_length
      (filter (λ s, ExitReason_eqb (UserSession.exitReason s) abandoned = true) sessions) in
  let totalTimeSpent :=
    foldl (λ sum session, sum + default 0 (UserSession.timeSpent session)) 0 sessions in
  let averageTimeSpent :=
    if 0 <? totalSessions
    then div (of_Z totalTimeSpent) (of_Z totalSessions) else zero in
  let conversionRate :=
    if 0 <? totalSessions
    then mul (div (of_Z completedSessions) (of_Z totalSessions)) hundred
    else zero in
  let dropOffByStep := foldl countDropOff ∅ sessions in
  {| AnalyticsSummary.totalSessions := totalSessions;
     AnalyticsSummary.completedSessions := completedSessions;
     AnalyticsSummary.abandonedSessions := abandonedSessions;
     AnalyticsSummary.averageTimeSpent := averageTimeSpent;
     AnalyticsSummary.conversionRate := conversionRate;
     AnalyticsSummary.dropOffByStep := dropOffByStep |}.

(** The untyped accumulator objects of [getStepStats]. *)
Module StepData.
Record t := {
  stepNumber : Z;
  stepName : string;
  entrances : Z;
  exits : Z;
  totalTimeSpent : Z;
  timeSpentCount : Z;
}.
End StepData.

(** [if (analytics.timeSpent)]: present and not zero. *)
Definition truthy (timeSpent : option Z) : bool :=
  match timeSpent with
  | Some t => negb (t =? 0)
  | None => false
  end.

(** The object a step gets when it is first seen. *)
Definition newStepData (analytics : StepAnalytics.t) : StepData.t :=
  {| StepData.stepNumber := StepAnalytics.step analytics;
     StepData.stepName := StepAnalytics.stepName analytics;
     StepData.entrances := 0;
     StepData.exits := 0;
     StepData.totalTimeSpent := 0;
     StepData.timeSpentCount := 0 |}.

(** The two updates of a step's object: the action counters, then the
    time. *)
Definition count (d : StepData.t) (analytics : StepAnalytics.t) : StepData.t :=
  let d1 :=
    match StepAnalytics.action analytics with
    | enter =>
        {| StepData.stepNumber := StepData.stepNumber d;
           StepData.stepName := StepData.stepName d;
           StepData.entrances := StepData.entrances d + 1;
           StepData.exits := StepData.exits d;
           StepData.totalTimeSpent := StepData.totalTimeSpent d;
           StepData.timeSpentCount := StepData.timeSpentCount d |}
    | exit =>
        {| StepData.stepNumber := StepData.stepNumber d;
           StepData.stepName := StepData.stepName d;
           StepData.entrances := StepData.entrances d;
           StepData.exits := StepData.exits d + 1;
           StepData.totalTimeSpent := StepData.totalTimeSpent d;
           StepData.timeSpentCount := StepData.timeSpentCount d |}
    | answer => d
    end in
  if truthy (StepAnalytics.timeSpent analytics) then
    {| StepData.stepNumber := StepData.stepNumber d1;
       StepData.stepName := StepData.stepName d1;
       StepData.entrances := StepData.entrances d1;
       StepData.exits := StepData.exits d1;
       StepData.totalTimeSpent :=
         StepData.totalTimeSpent d1 + default 0 (StepAnalytics.timeSpent analytics);
       StepData.timeSpentCount := StepData.timeSpentCount d1 + 1 |}
  else d1.

(** The callback of [snapshot.forEach]. *)
Definition collect (stepData : gmap Z StepData.t) (analytics : StepAnalytics.t)
  : gmap Z StepData.t :=
  let stepNum := StepAnalytics.step analytics in
  let d :=
    match stepData !! stepNum with
    | Some d => d
    | None => newStepData analytics
    end in
  <[stepNum := count d analytics]> stepData.

(** The callback of [Object.values(stepData).map]. *)
Definition toStepStats (step : StepData.t) : StepStats.t :=
  {| StepStats.stepNumber := StepData.stepNumber step;
     StepStats.stepName := StepData.stepName step;
     StepStats.entrances := StepData.entrances step;
     StepStats.exits := StepData.exits step;
     StepStats.averageTimeSpent :=
       if 0 <? StepData.timeSpentCount step
       then div (of_Z (StepData.totalTimeSpent step)) (of_Z (StepData.timeSpentCount step))
       else zero;
     StepStats.dropOffRate :=
       if 0 <? StepData.entrances step
       then mul (div (of_Z (StepData.exits step)) (of_Z (StepData.entrances step))) hundred
       else zero |}.

Definition byStepNumber (a b : StepStats.t) : number :=
  sub (of_Z (StepStats.stepNumber a)) (of_Z (StepStats.stepNumber b)).

(** [Object.values]: the accumulators in the enumeration order of the
    map.  The order of a JavaScript object differs, and the sort that
    follows erases the difference ([sort_Permutation_stepNumber]). *)
Definition Object_values (stepData : gmap Z StepData.t) : list StepData.t :=
  (map_to_list stepData).*2.

(** [getStepStats], from the documents the store returned. *)
Definition getStepStats (snapshot : list StepAnalytics.t) : list StepStats.t :=
  let stepData := foldl collect ∅ snapshot in
  JsArray.sort byStepNumber (map toStepStats (Object_values stepData)).

End AnalyticsQueries.

(** ** app/admin/sessions/page.tsx *)

Module SessionsPage.

Import AdminUtils.

(** The page's own copy of the classifier. *)
Definition parseUserAgent (userAgent : string) : UserAgentInfo :=
  let isMobile := test_i ["Mobile"; "Android"; "iPhone"; "iPad"] userAgent in
  let isTablet := test_i ["iPad"; "Tablet"] userAgent in
  let deviceType :=
    if isTablet then tablet else if isMobile then mobile else desktop in
  let browser :=
    if includes userAgent "Chrome" then "Chrome"
    else if includes userAgent "Firefox" then "Firefox"
    else if includes userAgent "Safari" then "Safari"
    else if includes userAgent "Edge" then "Edge"
    else "Unknown" in
  let os :=
    if includes userAgent "Windows" then "Windows"
    else if includes userAgent "Mac" then "macOS"
    else if includes userAgent "Linux" then "Linux"
    else if includes userAgent "Android" then "Android"
    else if includes userAgent "iOS" then "iOS"
    else "Unknown" in
  {| deviceType := deviceType; browser := browser; os := os |}.

(** [interface SessionWithDetails extends UserSession]. *)
Record SessionWithDetails := {
  base : UserSession.t;
  s_deviceType : option DeviceType;
  s_browser : option string;
  s_os : option string;
}.

Definition DeviceType_to_string (d : DeviceType) : string :=
  match d with
  | desktop => "desktop"
  | mobile => "mobile"
  | tablet => "tablet"
  end.

(** The mapping of [loadSessions]. *)
Definition withDeviceInfo (session : UserSession.t) : SessionWithDetails :=
  let info := parseUserAgent (UserSession.userAgent session) in
  {| base := session;
     s_deviceType := Some (deviceType info);
     s_browser := Some (browser info);
     s_os := Some (os info) |}.

Inductive SortKey := date | duration | step.
Inductive SortOrder := asc | desc.

(** The state hooks the filter reads. *)
Record State := {
  sessions : list SessionWithDetails;
  searchTerm : string;
  statusFilter : string;
  deviceFilter : string;
  sortBy : SortKey;
  sortOrder : SortOrder;
}.

(** [setSortBy(key); setSortOrder(order)]. *)
Definition withSort (st : State) (key : SortKey) (order : SortOrder) : State :=
  {| sessions := sessions st;
     searchTerm := searchTerm st;
     statusFilter := statusFilter st;
     deviceFilter := deviceFilter st;
     sortBy := key;
     sortOrder := order |}.

(** [x?.toLowerCase().includes(term)], falsy when [x] is missing. *)
Definition includes_opt (x : option string) (term : string) : bool :=
  match x with
  | Some s => includes (toLowerCase s) term
  | None => false
  end.

(** [x === filter] for an optional enumeration value. *)
Definition eq_opt {A} (to_string : A → string) (x : option A) (filter : string) : bool :=
  match x with
  | Some a => String.eqb (to_string a) filter
  | None => false
  end.

(** An operand that may be [undefined] turns into NaN under [-]. *)
Definition to_number (x : option Z) : number :=
  match x with
  | Some z => of_Z z
  | None => NaN
  end.

Section Page.
(** [new Date(s).getTime()], NaN for a string that is no date. *)
Variable getTime : string → number.

Definition matches (st : State) (session : SessionWithDetails) : bool :=
  let term := toLowerCase (searchTerm st) in
  let matchesSearch :=
    includes (toLowerCase (UserSession.sessionId (base session))) term
    || includes (toLowerCase (UserSession.userAgent (base session))) term
    || includes_opt (s_browser session) term
    || includes_opt (s_os session) term in
  let matchesStatus :=
    String.eqb (statusFilter st) "all"
    || eq_opt ExitReason_to_string (UserSession.exitReason (base session)) (statusFilter st) in
  let matchesDevice :=
    String.eqb (deviceFilter st) "all"
    || eq_opt DeviceType_to_string (s_deviceType session) (deviceFilter st) in
  matchesSearch && matchesStatus && matchesDevice.

(** The comparator handed to [filtered.sort]. *)
Definition compareSessions (key : SortKey) (order : SortOrder)
    (a b : SessionWithDetails) : number :=
  let comparison :=
    match key with
    | date =>
        sub (getTime (UserSession.timestamp (base a)))
            (getTime (UserSession.timestamp (base b)))
    | duration =>
        sub (of_Z (default 0 (UserSession.timeSpent (base a))))
            (of_Z (default 0 (UserSession.timeSpent (base b))))
    | step =>
        sub (to_number (UserSession.currentStep (base a)))
            (to_number (UserSession.currentStep (base b)))
    end in
  match order with
  | desc => neg comparison
  | asc => comparison
  end.

(** The sessions that pass the filters. *)
Definition filtered (st : State) : list SessionWithDetails :=
  filter (λ session, matches st session = true) (sessions st).

(** [filterAndSortSessions]: the value it hands to
    [setFilteredSessions]. *)
Definition filterAndSortSessions (st : State) : list SessionWithDetails :=
  JsArray.sort (compareSessions (sortBy st) (sortOrder st)) (filtered st).

End Page.

(** The key of the duration order: [session.timeSpent || 0]. *)
Definition durationOf (session : SessionWithDetails) : Z :=
  default 0 (UserSession.timeSpent (base session)).

(** The page's own [formatTime], for a whole number of seconds. *)
Definition formatTime (seconds : Z) : string :=
  let minutes := seconds / 60 in
  let remainingSeconds := Z.rem seconds 60 in
  Z_to_string minutes +:+ "m " +:+ Z_to_string remainingSeconds +:+ "s".

(** The number on the card of active sessions:
    [sessions.filter(s => !s.exitReason).length]. *)
Definition activeSessions (sessions : list SessionWithDetails) : Z :=
  Z.of_nat (length (filter (λ s, UserSession.exitReason (base s) = None) sessions)).

End SessionsPage.

(** ** app/admin/page.tsx: the dashboard *)

Module Dashboard.

Import AdminUtils.

(** The branch of the device breakdown a session falls in. *)
Definition deviceOf (session : UserSession.t) : DeviceType :=
  let userAgent := toLowerCase (UserSession.userAgent session) in
  if includes userAgent "mobile" || includes userAgent "android"
     || includes userAgent "iphone"
  then mobile
  else if includes userAgent "tablet" || includes userAgent "ipad" then tablet
  else desktop.

Record DeviceCounts := {
  mobileUsers : Z;
  desktopUsers : Z;
  tabletUsers : Z;
}.

(** The callback of [sessions.forEach]. *)
Definition countDevice (counts : DeviceCounts) (session : UserSession.t)
  : DeviceCounts :=
  match deviceOf session with
  | mobile =>
      {| mobileUsers := mobileUsers counts + 1;
         desktopUsers := desktopUsers counts;
         tabletUsers := tabletUsers counts |}
  | tablet =>
      {| mobileUsers := mobileUsers counts;
         desktopUsers := desktopUsers counts;
         tabletUsers := tabletUsers counts + 1 |}
  | desktop =>
      {| mobileUsers := mobileUsers counts;
         desktopUsers := desktopUsers counts + 1;
         tabletUsers := tabletUsers counts |}
  end.

Definition countDevices (sessions : list UserSession.t) : DeviceCounts :=
  foldl countDevice {| mobileUsers := 0; desktopUsers := 0; tabletUsers := 0 |} sessions.

(** [xs[i]] for a whole number [i]. *)
Definition at_index {A : Type} (xs : list A) (i : Z) : option A :=
  if i <? 0 then None else xs !! Z.to_nat i.

(** [x || 0]: 0 and NaN are falsy, and so is a missing value. *)
Definition or_zero (x : option number) : number :=
  match x with
  | Some NaN | None => zero
  | Some (Num q) => if decide (q = 0%Qc) then zero else Num q
  | Some a => a
  end.

(** The callback of [stepStats.reduce]. *)
Definition higherDropOff (stepStats : list StepStats.t) (max : Z) (step : StepStats.t)
  : Z :=
  if gt (StepStats.dropOffRate step)
        (or_zero (StepStats.dropOffRate <$> at_index stepStats max))
  then StepStats.stepNumber step
  else max.

Definition topExitStep (stepStats : list StepStats.t) : Z :=
  foldl (higherDropOff stepStats) 0 stepStats.

(** [(summary.abandonedSessions / summary.totalSessions) * 100]. *)
Definition abandonmentRate (summary : AnalyticsSummary.t) : number :=
  mul (div (of_Z (AnalyticsSummary.abandonedSessions summary))
           (of_Z (AnalyticsSummary.totalSessions summary)))
      hundred.

End Dashboard.

(** ** app/admin/analytics/page.tsx *)

Module AnalyticsPage.

(** The values of [statusChartData]: completed, abandoned, in progress. *)
Definition statusChartData (summary : AnalyticsSummary.t) : list (string * Z) :=
  [ ("Completed", AnalyticsSummary.completedSessions summary);
    ("Abandoned", AnalyticsSummary.abandonedSessions summary);
    ("In Progress",
      AnalyticsSummary.totalSessions summary
      - AnalyticsSummary.completedSessions summary
      - AnalyticsSummary.abandonedSessions summary) ].

End AnalyticsPage.

(** ** utils/analytics.ts: the session recorder *)

Module Recorder.

Section FormAnalytics.

(** The world outside the recorder (remote store, clock, browser) and
    what a failed call throws. *)
Variables (Env error : Type).

(** The outcome of a call: it returns, or it throws (an awaited promise
    that rejects). *)
Inductive completion (A : Type) :=
| Return (a : A)
| Throw (e : error).
Arguments Return {A} a.
Arguments Throw {A} e.

Inductive LogEntry :=
| console_log (message detail : string)
| console_error (message : string) (e : option error).

(** The fields of a [FormAnalytics] object. *)
Record FormAnalytics := {
  sessionId : string;
  startTime : Z;
  stepStartTime : Z;
  currentStep : Z;
  sessionDocId : option string;
}.

Record State := {
  this : FormAnalytics;
  env : Env;
  console : list LogEntry;
}.

(** What is written to the store. *)
Inductive DocData :=
| SessionData (d : UserSession.t)
| AnalyticsData (d : StepAnalytics.t).

Record SessionUpdate := {
  u_formData : option (list (string * AdminUtils.value));
  u_currentStep : option Z;
  u_exitReason : option ExitReason;
  u_timeSpent : option Z;
  u_updatedAt : Timestamp;
}.

(** The SDK.  [addDoc collection data] stands for
    [addDoc(collection(db, name), data)] and yields the new document's
    id; [updateDoc id data] for [updateDoc(doc(db, 'sessions', id), data)].
    Either may throw, and either may change the world. *)
Variable addDoc : string → DocData → Env → completion string * Env.
Variable updateDoc : string → SessionUpdate → Env → completion unit * Env.
(** [new Date().getTime()], [date.toISOString()], [navigator.userAgent]. *)
Variable now : Env → Z.
Variable toISOString : Z → string.
Variable navigator_userAgent : Env → string.

(** Computations over the state that may throw. *)
Definition M (A : Type) : Type := State → completion A * State.

Definition ret {A} (a : A) : M A := λ s, (Return a, s).

Definition bind {A B} (m : M A) (k : A → M B) : M B :=
  λ s, match m s with
       | (Return a, s') => k a s'
       | (Throw e, s') => (Throw e, s')
       end.

Definition try_catch {A} (body : M A) (handler : error → M A) : M A :=
  λ s, match body s with
       | (Return a, s') => (Return a, s')
       | (Throw e, s') => handler e s'
       end.

Notation "'let!' x := m 'in' k" := (bind m (λ x, k))
  (at level 10, x pattern, m at level 100, k at level 200).
Notation "m ;; k" := (bind m (λ _, k))
  (at level 100, k at level 200, right associativity).

Definition get_this : M FormAnalytics := λ s, (Return (this s), s).
Definition set_this (f : FormAnalytics) : M unit :=
  λ s, (Return (), {| this := f; env := env s; console := console s |}).
Definition read {A} (f : Env → A) : M A := λ s, (Return (f (env s)), s).
Definition log (entry : LogEntry) : M unit :=
  λ s, (Return (), {| this := this s; env := env s; console := console s ++ [entry] |}).
Definition call {A} (f : Env → completion A * Env) : M A :=
  λ s, let '(r, e') := f (env s) in
       (r, {| this := this s; env := e'; console := console s |}).

(** [Math.round(ms / 1000)]: to the nearest whole number, halves up. *)
Definition round_seconds (ms : Z) : Z := (ms + 500) / 1000.

Definition initializeSession : M unit :=
  let! self := get_this in
  let! time := read now in
  let! ua := read navigator_userAgent in
  let sessionData :=
    {| UserSession.id := None;
       UserSession.sessionId := sessionId self;
       UserSession.timestamp := toISOString time;
       UserSession.userAgent := ua;
       UserSession.currentStep := Some 0;
       UserSession.formData := [];
       UserSession.timeSpent := Some 0;
       UserSession.exitReason := None;
       UserSession.createdAt := serverTimestamp;
       UserSession.updatedAt := serverTimestamp |} in
  try_catch
    (let! docRef_id := call (addDoc "sessions" (SessionData sessionData)) in
     let! self := get_this in
     set_this {| sessionId := sessionId self;
                 startTime := startTime self;
                 stepStartTime := stepStartTime self;
                 currentStep := currentStep self;
                 sessionDocId := Some docRef_id |} ;;
     log (console_log "Session initialized with ID:" docRef_id))
    (λ error, log (console_error "Error initializing session:" (Some error))).

Definition trackStepEnter (step : Z) (stepName : string) : M unit :=
  let! self := get_this in
  let! time := read now in
  set_this {| sessionId := sessionId self;
              startTime := startTime self;
              stepStartTime := time;
              currentStep := step;
              sessionDocId := sessionDocId self |} ;;
  let analyticsData :=
    {| StepAnalytics.id := None;
       StepAnalytics.sessionId := sessionId self;
       StepAnalytics.step := step;
       StepAnalytics.stepName := stepName;
       StepAnalytics.action := enter;
       StepAnalytics.timestamp := toISOString time;
       StepAnalytics.answer := None;
       StepAnalytics.timeSpent := None;
       StepAnalytics.exitReason := None;
       StepAnalytics.createdAt := serverTimestamp |} in
  try_catch
    (call (addDoc "stepAnalytics" (AnalyticsData analyticsData)) ;; ret ())
    (λ error, log (console_error "Error tracking step enter:" (Some error))).

Definition trackStepAnswer (step : Z) (stepName : string)
    (answer : AdminUtils.value) : M unit :=
  let! self := get_this in
  let! time := read now in
  let timeSpent := round_seconds (time - stepStartTime self) in
  let analyticsData :=
    {| StepAnalytics.id := None;
       StepAnalytics.sessionId := sessionId self;
       StepAnalytics.step := step;
       StepAnalytics.stepName := stepName;
       StepAnalytics.action := Types.answer;
       StepAnalytics.timestamp := toISOString time;
       StepAnalytics.answer := Some answer;
       StepAnalytics.timeSpent := Some timeSpent;
       StepAnalytics.exitReason := None;
       StepAnalytics.createdAt := serverTimestamp |} in
  try_catch
    (call (addDoc "stepAnalytics" (AnalyticsData analyticsData)) ;; ret ())
    (λ error, log (console_error "Error tracking step answer:" (Some error))).

Definition updateSession (updateData : SessionUpdate) : M unit :=
  let! self := get_this in
  match sessionDocId self with
  | None => log (console_error "Session document ID not available" None)
  | Some docId =>
      try_catch
        (call (updateDoc docId updateData))
        (λ error, log (console_error "Error updating session:" (Some error)))
  end.

Definition trackStepExit (step : Z) (stepName : string) (reason : ExitReason)
  : M unit :=
  let! self := get_this in
  let! time := read now in
  let totalTimeSpent := round_seconds (time - startTime self) in
  let stepTimeSpent := round_seconds (time - stepStartTime self) in
  let analyticsData :=
    {| StepAnalytics.id := None;
       StepAnalytics.sessionId := sessionId self;
       StepAnalytics.step := step;
       StepAnalytics.stepName := stepName;
       StepAnalytics.action := exit;
       StepAnalytics.timestamp := toISOString time;
       StepAnalytics.answer := None;
       StepAnalytics.timeSpent := Some stepTimeSpent;
       StepAnalytics.exitReason := Some reason;
       StepAnalytics.createdAt := serverTimestamp |} in
  try_catch
    (call (addDoc "stepAnalytics" (AnalyticsData analyticsData)) ;; ret ())
    (λ error, log (console_error "Error tracking step exit:" (Some error))) ;;
  let sessionUpdate :=
    {| u_formData := None;
       u_currentStep := Some step;
       u_exitReason := Some reason;
       u_timeSpent := Some totalTimeSpent;
       u_updatedAt := serverTimestamp |} in
  updateSession sessionUpdate.

Definition updateFormData (formData : list (string * AdminUtils.value))
  : M unit :=
  let! self := get_this in
  let sessionUpdate :=
    {| u_formData := Some formData;
       u_currentStep := Some (currentStep self);
       u_exitReason := None;
       u_timeSpent := None;
       u_updatedAt := serverTimestamp |} in
  updateSession sessionUpdate.

(** The step event [trackStepExit] writes at the time [time]. *)
Definition exitEvent (self : FormAnalytics) (time : Z) (step : Z) (stepName : string)
    (reason : ExitReason) : StepAnalytics.t :=
  {| StepAnalytics.id := None;
     StepAnalytics.sessionId := sessionId self;
     StepAnalytics.step := step;
     StepAnalytics.stepName := stepName;
     StepAnalytics.action := exit;
     StepAnalytics.timestamp := toISOString time;
     StepAnalytics.answer := None;
     StepAnalytics.timeSpent := Some (round_seconds (time - stepStartTime self));
     StepAnalytics.exitReason := Some reason;
     StepAnalytics.createdAt := serverTimestamp |}.

(** [getStepName(step)]: the name of one of the five steps, or a numbered
    placeholder. *)
Definition getStepName (step : Z) : string :=
  let stepNames :=
    [ "US Resident Check"; "Credit Score Check"; "Late Payments Check";
      "Derogatory Marks Check"; "Contact Information" ] in
  match (if step <? 0 then None else stepNames !! Z.to_nat step) with
  | Some name => name
  | None => "Step " +:+ Z_to_string step
  end.

(** The two listeners of [initializeVisibilityTracking]. *)
Definition on_visibilitychange (hidden : bool) : M unit :=
  if hidden then
    let! self := get_this in
    trackStepExit (currentStep self) (getStepName (currentStep self)) abandoned
  else ret ().

Definition on_beforeunload : M unit :=
  let! self := get_this in
  trackStepExit (currentStep self) (getStepName (currentStep self)) abandoned.

(** The call returned; nothing was thrown at the caller. *)
Definition returns {A} (r : completion A * State) : bool :=
  match r.1 with
  | Return _ => true
  | Throw _ => false
  end.

(** Every write to the store fails. *)
Definition writes_fail : Prop :=
  (∀ c d e, ∃ err e', addDoc c d e = (Throw err, e')) ∧
  (∀ i u e, ∃ err e', updateDoc i u e = (Throw err, e')).

Definition is_error (entry : LogEntry) : bool :=
  match entry with
  | console_error _ _ => true
  | console_log _ _ => false
  end.

(** The call [r] made from the state [s] returned, and all it left
    behind is error lines on the console: the session still has the
    document id it had, if any. *)
Definition only_logged (r : completion unit * State) (s : State) : Prop :=
  r.1 = Return () ∧
  sessionDocId (this r.2) = sessionDocId (this s) ∧
  ∃ entries,
    entries ≠ [] ∧ forallb is_error entries = true ∧
    console r.2 = console s ++ entries.

End FormAnalytics.

Arguments Return {error A} a.
Arguments Throw {error A} e.
Arguments console_log {error} message detail.
Arguments console_error {error} message e.
Arguments initializeSession {Env error}.
Arguments trackStepEnter {Env error}.
Arguments trackStepAnswer {Env error}.
Arguments trackStepExit {Env error}.
Arguments updateFormData {Env error}.
Arguments updateSession {Env error}.
Arguments returns {Env error A}.
Arguments this {Env error}.
Arguments env {Env error}.
Arguments console {Env error}.
Arguments writes_fail {Env error}.
Arguments only_logged {Env error}.
Arguments on_visibilitychange {Env error}.
Arguments on_beforeunload {Env error}.

End Recorder.

(** ** utils/googleSheetsClient.ts *)

Module GoogleSheets.

Import Recorder.

Section Client.

(** The spreadsheet service and what a failed request throws. *)
Variables (Env error : Type).

Record State := {
  env : Env;
  console : list (LogEntry error);
}.

Definition M (A : Type) : Type := State → completion error A * State.

Definition ret {A} (a : A) : M A := λ s, (Return a, s).

Definition throw {A} (e : error) : M A := λ s, (Throw e, s).

Definition bind {A B} (m : M A) (k : A → M B) : M B :=
  λ s, match m s with
       | (Return a, s') => k a s'
       | (Throw e, s') => (Throw e, s')
       end.

Definition try_catch {A} (body : M A) (handler : error → M A) : M A :=
  λ s, match body s with
       | (Return a, s') => (Return a, s')
       | (Throw e, s') => handler e s'
       end.

Notation "'let!' x := m 'in' k" := (bind m (λ x, k))
  (at level 10, x pattern, m at level 100, k at level 200).
Notation "m ;; k" := (bind m (λ _, k))
  (at level 100, k at level 200, right associativity).

Definition log (entry : LogEntry error) : M unit :=
  λ s, (Return (), {| env := env s; console := console s ++ [entry] |}).

Definition call {A} (f : Env → completion error A * Env) : M A :=
  λ s, let '(r, e') := f (env s) in (r, {| env := e'; console := console s |}).

(** [for (const x of xs) { await body(x) }]. *)
Fixpoint for_of {A} (xs : list A) (body : A → M unit) : M unit :=
  match xs with
  | [] => ret ()
  | x :: xs' => body x ;; for_of xs' body
  end.

(** A row of cells. *)
Definition row := list string.

(** The requests of the service the client sends.
    [spreadsheets_get] yields the titles of the sheets,
    [values_get] the rows of a range, if it has any. *)
Variable values_append : string → list row → Env → completion error unit * Env.
Variable spreadsheets_get : Env → completion error (list string) * Env.
Variable batchUpdate_addSheet : string → Env → completion error unit * Env.
Variable values_get : string → Env → completion error (option (list row)) * Env.
Variable values_update : string → list row → Env → completion error unit * Env.
Variable values_clear : string → Env → completion error unit * Env.

(** [console.error(message, error); throw error]. *)
Definition log_and_rethrow {A} (message : string) (e : error) : M A :=
  log (console_error message (Some e)) ;; throw e.

Definition appendToSheet (sheetName : string) (values : row) : M unit :=
  try_catch
    (call (values_append (sheetName +:+ "!A:Z") [values]))
    (log_and_rethrow ("Error appending to " +:+ sheetName +:+ ":")).

Definition requiredSheets : list (string * row) :=
  [ ("Sessions",
      [ "Session ID"; "Timestamp"; "User Agent"; "Current Step"; "Exit Reason";
        "Time Spent (s)"; "Form Data" ]);
    ("Step Analytics",
      [ "Session ID"; "Step"; "Step Name"; "Action"; "Timestamp"; "Answer";
        "Time Spent (s)" ]);
    ("Session Updates",
      [ "Session ID"; "Timestamp"; "Current Step"; "Form Data"; "Exit Reason";
        "Time Spent (s)" ]) ].

(** The body of the loop over [requiredSheets]. *)
Definition createIfMissing (existingSheets : list string) (sheet : string * row)
  : M unit :=
  if bool_decide (sheet.1 ∈ existingSheets) then ret ()
  else
    call (batchUpdate_addSheet sheet.1) ;;
    call (values_append (sheet.1 +:+ "!A:Z") [sheet.2]).

Definition createSheetsIfNotExist : M unit :=
  try_catch
    (let! existingSheets := call spreadsheets_get in
     for_of requiredSheets (createIfMissing existingSheets))
    (log_and_rethrow "Error creating sheets:").

(** [range || fallback]: a missing range and the empty string are
    falsy. *)
Definition range_or (range : option string) (fallback : string) : string :=
  match range with
  | Some EmptyString | None => fallback
  | Some r => r
  end.

Definition readFromSheet (sheetName : string) (range : option string)
  : M (list row) :=
  try_catch
    (let! values :=
       call (values_get (range_or range (sheetName +:+ "!A:Z"))) in
     ret (default [] values))
    (log_and_rethrow ("Error reading from " +:+ sheetName +:+ ":")).

Definition updateSheet (sheetName range : string) (values : list row) : M unit :=
  try_catch
    (call (values_update (sheetName +:+ "!" +:+ range) values))
    (log_and_rethrow ("Error updating " +:+ sheetName +:+ ":")).

Definition clearSheet (sheetName : string) (range : option string) : M unit :=
  try_catch
    (call (values_clear (range_or range (sheetName +:+ "!A:Z"))))
    (log_and_rethrow ("Error clearing " +:+ sheetName +:+ ":")).

(** What a call leaves on the console: one error line when it throws [e],
    nothing when it returns. *)
Definition rethrown {A} (message : string) (r : completion error A * State)
    (s : State) : Prop :=
  match r.1 with
  | Return _ => console r.2 = console s
  | Throw e => console r.2 = console s ++ [console_error message (Some e)]
  end.

End Client.

Arguments env {Env error}.
Arguments console {Env error}.
Arguments appendToSheet {Env error}.
Arguments createSheetsIfNotExist {Env error}.
Arguments readFromSheet {Env error}.
Arguments updateSheet {Env error}.
Arguments clearSheet {Env error}.
Arguments rethrown {Env error A}.

End GoogleSheets.

(** ** Notions the statements below are phrased in *)

Module Spec.

(** [userAgent] contains one of [words], letter case ignored. *)
Definition mentions (words : list string) (userAgent : string) : Prop :=
  ∃ w pre post,
    w ∈ words ∧ toLowerCase userAgent = pre +:+ toLowerCase w +:+ post.

(** What an event of a step does to the entry of that step. *)
Definition entry_step (o : option AnalyticsQueries.StepData.t) (a : StepAnalytics.t)
  : option AnalyticsQueries.StepData.t :=
  Some (AnalyticsQueries.count (default (AnalyticsQueries.newStepData a) o) a).

(** The events of step [k]. *)
Definition eventsOf (k : Z) (events : list StepAnalytics.t) : list StepAnalytics.t :=
  filter (λ a, StepAnalytics.step a = k) events.

(** How many of the events have the action [act]. *)
Definition countAction (act : Action) (events : list StepAnalytics.t) : Z :=
  Z.of_nat (length (filter (λ a, StepAnalytics.action a = act) events)).

(** The [timeSpent] values present on the events. *)
Definition timesSpent (events : list StepAnalytics.t) : list Z :=
  omap StepAnalytics.timeSpent events.

Definition nonZero (values : list Z) : list Z := filter (λ t, t ≠ 0) values.

Definition sum (values : list Z) : Z := foldr Z.add 0 values.

(** The arithmetic mean, 0 when there is no value. *)
Definition mean (values : list Z) : number :=
  match values with
  | [] => zero
  | _ => div (of_Z (sum values)) (of_Z (Z.of_nat (length values)))
  end.

(** [M / N * 100], 0 when [N] is 0. *)
Definition percentage (m n : Z) : number :=
  if decide (n = 0) then zero else mul (div (of_Z m) (of_Z n)) hundred.

(** The statistics of step [k] from its events [evs]: the counts of
    entries and exits, their percentage, and the mean of the [timeSpent]
    values that are not 0. *)
Definition stepStatsOf (k : Z) (evs : list StepAnalytics.t) : StepStats.t :=
  {| StepStats.stepNumber := k;
     StepStats.stepName := from_option StepAnalytics.stepName EmptyString (head evs);
     StepStats.entrances := countAction enter evs;
     StepStats.exits := countAction exit evs;
     StepStats.averageTimeSpent := mean (nonZero (timesSpent evs));
     StepStats.dropOffRate := percentage (countAction exit evs) (countAction enter evs) |}.

(** A one-character string. *)
Definition char (c : ascii) : string := String c EmptyString.

(** [text] between two double quotes. *)
Definition quoted (text : string) : string :=
  char dquote +:+ text +:+ char dquote.

(** A finite number between two whole numbers. *)
Definition between (lo hi : Z) (a : number) : Prop :=
  ∃ q, a = Num q ∧ (Qc_of_Z lo <= q)%Qc ∧ (q <= Qc_of_Z hi)%Qc.

(** The sessions that ended with [reason]. *)
Definition endedWith (reason : ExitReason) (sessions : list UserSession.t)
  : list UserSession.t :=
  filter (λ s, UserSession.exitReason s = Some reason) sessions.

(** The sessions abandoned at step [k]. *)
Definition abandonedAt (k : Z) (sessions : list UserSession.t) : list UserSession.t :=
  filter (λ s, UserSession.currentStep s = Some k) (endedWith abandoned sessions).

(** The sum of the values of a dictionary of counters. *)
Definition total (counters : gmap Z Z) : Z :=
  map_fold (λ _ n acc, n + acc) 0 counters.

(** A list as the value of a dictionary entry: no entry for no element. *)
Definition nonempty {A : Type} (xs : list A) : option (list A) :=
  match xs with
  | [] => None
  | _ => Some xs
  end.

End Spec.

(** ** Sample data *)

Module Examples.

Import SessionsPage.

Definition session (sessionId : string) (timeSpent : option Z) : UserSession.t :=
  {| UserSession.id := Some sessionId;
     UserSession.sessionId := sessionId;
     UserSession.timestamp := "2024-05-01T10:00:00.000Z";
     UserSession.userAgent := "Mozilla/5.0 (X11; Linux x86_64) Firefox/125.0";
     UserSession.currentStep := Some 2;
     UserSession.formData := [];
     UserSession.timeSpent := timeSpent;
     UserSession.exitReason := Some abandoned;
     UserSession.createdAt := TimestampAt 1714557600000;
     UserSession.updatedAt := TimestampAt 1714557600000 |}.

Definition sA := withDeviceInfo (session "A" (Some 5)).
Definition sB := withDeviceInfo (session "B" (Some 5)).
Definition sC := withDeviceInfo (session "C" (Some 9)).
Definition sD := withDeviceInfo (session "D" None).

Definition page (sessions : list SessionWithDetails) (order : SortOrder) : State :=
  {| sessions := sessions;
     searchTerm := EmptyString;
     statusFilter := "all";
     deviceFilter := "all";
     sortBy := duration;
     sortOrder := order |}.

Definition event (action : Action) (timeSpent : option Z) : StepAnalytics.t :=
  {| StepAnalytics.id := None;
     StepAnalytics.sessionId := "A";
     StepAnalytics.step := 1;
     StepAnalytics.stepName := "Credit Score Check";
     StepAnalytics.action := action;
     StepAnalytics.timestamp := "2024-05-01T10:00:00.000Z";
     StepAnalytics.answer := None;
     StepAnalytics.timeSpent := timeSpent;
     StepAnalytics.exitReason := None;
     StepAnalytics.createdAt := TimestampAt 1714557600000 |}.

(** A step entered, answered within half a second (the recorder rounds
    that to 0 seconds), and left 12 seconds after the entry. *)
Definition quickAnswer : list StepAnalytics.t :=
  [ event enter None; event answer (Some 0); event exit (Some 12) ].

(** A store that is out of reach: every call throws. *)
Definition offline_addDoc (collection : string) (data : Recorder.DocData) (env : unit)
  : Recorder.completion string string * unit :=
  (Recorder.Throw "unavailable", env).

Definition offline_updateDoc (docId : string) (data : Recorder.SessionUpdate) (env : unit)
  : Recorder.completion string unit * unit :=
  (Recorder.Throw "unavailable", env).

Definition fresh : Recorder.State unit string :=
  {| Recorder.this :=
       {| Recorder.sessionId := "A";
          Recorder.startTime := 1714557600000;
          Recorder.stepStartTime := 1714557600000;
          Recorder.currentStep := 0;
          Recorder.sessionDocId := None |};
     Recorder.env := ();
     Recorder.console := [] |}.

(** A store that accepts every write and keeps what it was sent, with a
    clock that stands still. *)
Record Spy := {
  written : list (string * Recorder.DocData);
  updated : list (string * Recorder.SessionUpdate);
  clock : Z;
}.

Definition spy_addDoc (collection : string) (data : Recorder.DocData) (e : Spy)
  : Recorder.completion string string * Spy :=
  (Recorder.Return "doc",
   {| written := written e ++ [(collection, data)];
      updated := updated e;
      clock := clock e |}).

Definition spy_updateDoc (docId : string) (data : Recorder.SessionUpdate) (e : Spy)
  : Recorder.completion string unit * Spy :=
  (Recorder.Return (),
   {| written := written e;
      updated := updated e ++ [(docId, data)];
      clock := clock e |}).

(** The step events among the documents written. *)
Definition stepEvents (docs : list (string * Recorder.DocData)) : list StepAnalytics.t :=
  omap (λ d, match d.2 with
             | Recorder.AnalyticsData a => Some a
             | Recorder.SessionData _ => None
             end) docs.

(** The statistics of a step, reduced to its index and its drop-off
    rate. *)
Definition stats (stepNumber rate : Z) : StepStats.t :=
  {| StepStats.stepNumber := stepNumber;
     StepStats.stepName := Recorder.getStepName stepNumber;
     StepStats.entrances := 100;
     StepStats.exits := rate;
     StepStats.averageTimeSpent := of_Z 20;
     StepStats.dropOffRate := of_Z rate |}.

(** A clock that knows no date. *)
Definition noDate (s : string) : number := NaN.

End Examples.

(** * Properties *)

(** ** Numbers *)

Section NumberFacts.

Lemma Num_eq (x y : Qc) : (x == y)%Q → Num x = Num y.
Proof. intros H. f_equal. by apply Qc_is_canon. Qed.

Lemma Qc_of_Z_lt (a b : Z) : (Qc_of_Z a < Qc_of_Z b)%Qc ↔ a < b.
Proof.
  unfold Qc_of_Z, Qclt. simpl. rewrite !Qred_correct. by rewrite <- Zlt_Qlt.
Qed.

Lemma Qc_of_Z_inj (a b : Z) : Qc_of_Z a = Qc_of_Z b → a = b.
Proof.
  intros H. apply (f_equal this) in H. unfold Qc_of_Z in H. simpl in H.
  apply inject_Z_injective. by rewrite <- (Qred_correct (inject_Z a)), H, Qred_correct.
Qed.

Lemma Qc_of_Z_sub (a b : Z) : (Qc_of_Z a + - Qc_of_Z b)%Qc = Qc_of_Z (a - b).
Proof.
  apply Qc_is_canon. unfold Qc_of_Z. simpl.
  rewrite !Qred_correct. unfold Z.sub. rewrite inject_Z_plus, inject_Z_opp.
  reflexivity.
Qed.

Lemma sub_of_Z (a b : Z) : sub (of_Z a) (of_Z b) = of_Z (a - b).
Proof. unfold sub, of_Z. simpl. by rewrite Qc_of_Z_sub. Qed.

Lemma neg_of_Z (a : Z) : neg (of_Z a) = of_Z (- a).
Proof.
  unfold of_Z. simpl. f_equal. apply Qc_is_canon. unfold Qc_of_Z. simpl.
  rewrite !Qred_correct. by rewrite inject_Z_opp.
Qed.

Lemma gt_of_Z (a b : Z) : gt (of_Z a) (of_Z b) = bool_decide (b < a).
Proof. unfold of_Z. simpl. apply bool_decide_ext, Qc_of_Z_lt. Qed.

Lemma strict_eq_of_Z (a b : Z) : strict_eq (of_Z a) (of_Z b) = bool_decide (a = b).
Proof.
  unfold of_Z. simpl. apply bool_decide_ext. split; [apply Qc_of_Z_inj | congruence].
Qed.

Lemma strict_eq_true (a b : number) : strict_eq a b = true → a = b.
Proof.
  destruct a, b; simpl; try discriminate; try reflexivity.
  intros H. apply bool_decide_eq_true in H. by subst.
Qed.

Lemma strict_eq_zero (a : number) : strict_eq a zero = true ↔ a = zero.
Proof.
  split; [apply strict_eq_true |]. intros ->. unfold zero. by rewrite strict_eq_of_Z.
Qed.

Lemma div_finite (x y : Qc) : y ≠ Qc_of_Z 0 → div (Num x) (Num y) = Num (x / y)%Qc.
Proof.
  intros Hy. simpl. destruct (decide (y = 0%Qc)) as [->|]; [|done].
  exfalso. apply Hy. by apply Qc_is_canon.
Qed.

Lemma div_of_Z_finite (a n : Z) :
  0 < n → div (of_Z a) (of_Z n) = Num (Qc_of_Z a / Qc_of_Z n)%Qc.
Proof.
  intros Hn. apply div_finite. intros H. apply Qc_of_Z_inj in H. lia.
Qed.

End NumberFacts.

(** ** adminUtils.ts: rates and durations *)

Section Rates.

Import AdminUtils.

Lemma rate_finite (c t : Qc) :
  t ≠ Qc_of_Z 0 →
  mul (div (Num c) (Num t)) hundred = Num (c / t * Qc_of_Z 100)%Qc.
Proof. intros Ht. by rewrite div_finite. Qed.

Lemma rate_unfold (f : number → number → number) :
  (∀ a b, f a b = if strict_eq b zero then zero else mul (div a b) hundred) →
  ∀ a b,
    (b = zero → f a b = zero) ∧
    (b ≠ zero → f a b = mul (div a b) hundred) ∧
    (∀ c t : Qc, t ≠ Qc_of_Z 0 → f (Num c) (Num t) = Num (c / t * Qc_of_Z 100)%Qc).
Proof.
  intros Hf a b. split_and!.
  - intros ->. rewrite Hf. by rewrite (proj2 (strict_eq_zero zero)).
  - intros Hb. rewrite Hf. destruct (strict_eq b zero) eqn:E; [|done].
    by apply strict_eq_zero in E.
  - intros c t Ht. rewrite Hf.
    destruct (strict_eq (Num t) zero) eqn:E.
    + apply strict_eq_zero in E. by inversion E.
    + by apply rate_finite.
Qed.

(** C6: [getConversionRate(completed, total)] is 0 when [total] is 0 and
    [(completed / total) * 100] otherwise, a finite rational for finite
    arguments; [getConversionRate(0, 0)] is 0 and
    [getConversionRate(5, 10)] is 50. *)
Theorem getConversionRate_spec (completed total : number) :
  (total = zero → getConversionRate completed total = zero) ∧
  (total ≠ zero →
     getConversionRate completed total = mul (div completed total) hundred) ∧
  (∀ c t : Qc, t ≠ Qc_of_Z 0 →
     getConversionRate (Num c) (Num t) = Num (c / t * Qc_of_Z 100)%Qc) ∧
  getConversionRate (of_Z 0) (of_Z 0) = of_Z 0 ∧
  getConversionRate (of_Z 5) (of_Z 10) = of_Z 50.
Proof.
  destruct (rate_unfold getConversionRate (λ _ _, eq_refl) completed total)
    as (H0 & H1 & H2).
  split_and!; [done..| |].
  - by apply (proj1 (rate_unfold getConversionRate (λ _ _, eq_refl) _ _)).
  - unfold of_Z. rewrite H2; [by apply Num_eq |].
    intros H. by apply Qc_of_Z_inj in H.
Qed.

(** C7: [getDropOffRate(exits, entrances)] is 0 when [entrances] is 0 and
    [(exits / entrances) * 100] otherwise, whatever numbers are passed:
    finite ones, the infinities or NaN. *)
Theorem getDropOffRate_spec (exits entrances : number) :
  (entrances = zero → getDropOffRate exits entrances = zero) ∧
  (entrances ≠ zero →
     getDropOffRate exits entrances = mul (div exits entrances) hundred) ∧
  (∀ x n : Qc, n ≠ Qc_of_Z 0 →
     getDropOffRate (Num x) (Num n) = Num (x / n * Qc_of_Z 100)%Qc).
Proof. exact (rate_unfold getDropOffRate (λ _ _, eq_refl) exits entrances). Qed.

Lemma minutes_of_seconds (s : Z) :
  0 <= s → (s / 60) / 60 = s / 3600 ∧ Z.rem (s / 60) 60 = (s mod 3600) / 60.
Proof.
  intros Hs. split.
  - rewrite Z.div_div by lia. reflexivity.
  - rewrite Z.rem_mod_nonneg by (try apply Z.div_pos; lia).
    change 3600 with (60 * 60). rewrite Z.rem_mul_r by lia.
    rewrite (Z.mul_comm 60 ((s / 60) mod 60)), Z.div_add by lia.
    rewrite (Z.div_small (s mod 60)) by (apply Z.mod_pos_bound; lia). lia.
Qed.

(** C8: for a whole number [s >= 0] of seconds, [formatTime] prints the
    seconds alone below one minute, minutes and seconds below one hour,
    and from one hour on the whole hours and the whole minutes of the
    rest, without the seconds; [formatTime(45)] is 45s, [formatTime(125)]
    is 2m 5s and [formatTime(3725)] is 1h 2m. *)
Theorem formatTime_spec (s : Z) (Hs : 0 <= s) :
  (s < 60 → formatTime s = Z_to_string s +:+ "s") ∧
  (60 <= s < 3600 →
     formatTime s = Z_to_string (s / 60) +:+ "m " +:+ Z_to_string (s mod 60) +:+ "s") ∧
  (3600 <= s →
     formatTime s =
     Z_to_string (s / 3600) +:+ "h " +:+ Z_to_string ((s mod 3600) / 60) +:+ "m") ∧
  formatTime 45 = "45s" ∧
  formatTime 125 = "2m 5s" ∧
  formatTime 3725 = "1h 2m".
Proof.
  split_and!; [| | |reflexivity..].
  - intros H. unfold formatTime. by rewrite (proj2 (Z.ltb_lt s 60)).
  - intros [H1 H2]. unfold formatTime.
    rewrite (proj2 (Z.ltb_ge s 60)) by lia.
    rewrite (proj2 (Z.ltb_lt (s / 60) 60)) by (apply Z.div_lt_upper_bound; lia).
    by rewrite Z.rem_mod_nonneg by lia.
  - intros H. unfold formatTime.
    rewrite (proj2 (Z.ltb_ge s 60)) by lia.
    rewrite (proj2 (Z.ltb_ge (s / 60) 60)) by (apply Z.div_le_lower_bound; lia).
    destruct (minutes_of_seconds s Hs) as [-> ->]. reflexivity.
Qed.

(** [formatTime_spec] at one hour, two minutes and five seconds. *)
Lemma formatTime_spec_witness :
  0 <= 3725 ∧
  formatTime 3725 =
  Z_to_string (3725 / 3600) +:+ "h " +:+ Z_to_string ((3725 mod 3600) / 60) +:+ "m".
Proof.
  split; [lia |].
  apply (formatTime_spec 3725); lia.
Defined.

End Rates.

(** ** Strings *)

Section StringFacts.

Lemma app_String (c : ascii) (s t : string) :
  String c s +:+ t = String c (s +:+ t).
Proof. reflexivity. Qed.

Lemma app_Empty (t : string) : EmptyString +:+ t = t.
Proof. reflexivity. Qed.

Lemma prefix_spec (sub s : string) :
  String.prefix sub s = true ↔ ∃ post, s = sub +:+ post.
Proof.
  revert s. induction sub as [|a sub IH]; intros s; simpl.
  - split; [intros _; by exists s | by destruct s].
  - destruct s as [|b s]; simpl.
    + split; [done | intros [post H]; discriminate].
    + setoid_rewrite app_String.
      destruct (ascii_dec a b) as [->|Hab].
      * rewrite IH. split; intros [post H]; exists post; congruence.
      * split; [done | intros [post H]; congruence].
Qed.

(** [s.includes(sub)] holds exactly when [sub] is a substring of [s]. *)
Lemma includes_spec (s sub : string) :
  includes s sub = true ↔ ∃ pre post, s = pre +:+ sub +:+ post.
Proof.
  induction s as [|c s IH].
  - change (includes EmptyString sub) with (String.prefix sub EmptyString || false).
    rewrite orb_false_r, prefix_spec. split.
    + intros [post H]. by exists EmptyString, post.
    + intros (pre & post & H). destruct pre; [by exists post | discriminate].
  - change (includes (String c s) sub)
      with (String.prefix sub (String c s) || includes s sub).
    rewrite orb_true_iff, prefix_spec, IH. split.
    + intros [[post H] | (pre & post & H)].
      * by exists EmptyString, post.
      * exists (String c pre), post. rewrite app_String. by rewrite H.
    + intros (pre & post & H). destruct pre as [|c' pre].
      * left. by exists post.
      * right. exists pre, post. rewrite app_String in H. congruence.
Qed.

Lemma double_quotes_app (s1 s2 : string) :
  double_quotes (s1 +:+ s2) = double_quotes s1 +:+ double_quotes s2.
Proof.
  induction s1 as [|c s1 IH]; [done |].
  rewrite app_String. simpl.
  destruct (Ascii.eqb c dquote); rewrite !app_String; by rewrite IH.
Qed.

Lemma double_quotes_quote :
  double_quotes (String dquote EmptyString) = String dquote (String dquote EmptyString).
Proof. reflexivity. Qed.

Lemma double_quotes_other (c : ascii) :
  c ≠ dquote → double_quotes (String c EmptyString) = String c EmptyString.
Proof.
  intros Hc. simpl. destruct (Ascii.eqb_spec c dquote); [done | reflexivity].
Qed.

End StringFacts.

(** ** adminUtils.ts: the CSV export *)

Section Csv.

Import AdminUtils Spec.

Lemma cell_string_quoted (s : string) :
  includes s "," = true ∨ includes s (char dquote) = true →
  cell (VString s) = VString (quoted (double_quotes s)).
Proof.
  intros H. unfold cell, quoted, char.
  replace (includes s "," || includes s (String dquote EmptyString)) with true; [done |].
  symmetry. apply orb_true_iff. exact H.
Qed.

Lemma cell_string_plain (s : string) :
  includes s "," = false → includes s (char dquote) = false →
  cell (VString s) = VString s.
Proof. intros H1 H2. unfold cell, char in *. by rewrite H1, H2. Qed.

Lemma join_cons (sep x : string) (xs : list string) :
  xs ≠ [] → join sep (x :: xs) = x +:+ sep +:+ join sep xs.
Proof. destruct xs; [done | reflexivity]. Qed.

(** C3: for a non-empty list of rows the exported text starts with the
    keys of the first row joined by commas, followed by one line per row;
    a string cell that contains a comma or a double quote is written
    between double quotes with every double quote inside it doubled; the
    one row [{a: x,y  b: 1}] gives the header a,b and the row made of
    x,y between double quotes, a comma and 1. *)
Theorem exportToCSV_content (today filename : string) (first : row) (rest : list row) :
  exportToCSV today (first :: rest) filename =
    [ NewBlob (csvContent (first :: rest)) "text/csv"; CreateObjectURL;
      CreateElement "a"; SetHref;
      SetDownload (filename +:+ "-" +:+ today +:+ ".csv"); Click;
      RevokeObjectURL ] ∧
  csvContent (first :: rest) =
    join "," (Object_keys first) +:+ char newline +:+
    join (char newline) (map (csvRow (Object_keys first)) (first :: rest)) ∧
  (∀ headers r,
     csvRow headers r = join "," (map (λ h, join_item (cell (get r h))) headers)) ∧
  (∀ r h s, get r h = VString s →
     includes s "," = true ∨ includes s (char dquote) = true →
     join_item (cell (get r h)) = quoted (double_quotes s)) ∧
  (∀ s1 s2, double_quotes (s1 +:+ s2) = double_quotes s1 +:+ double_quotes s2) ∧
  double_quotes (char dquote) = char dquote +:+ char dquote ∧
  (∀ c, c ≠ dquote → double_quotes (char c) = char c) ∧
  csvContent [[("a", VString "x,y"); ("b", VNumber 1)]] =
    "a,b" +:+ char newline +:+ quoted "x,y" +:+ ",1".
Proof.
  split_and!; [done | | done | | | | | reflexivity].
  - unfold csvContent.
    change (default [] (head (first :: rest))) with first.
    by rewrite join_cons.
  - intros r h s Hget H. by rewrite Hget, cell_string_quoted.
  - apply double_quotes_app.
  - reflexivity.
  - apply double_quotes_other.
Qed.

(** C9: on an empty array [exportToCSV] returns at once: the browser is
    asked for nothing, so no text is built and no download starts, and
    the call cannot fail. *)
Theorem exportToCSV_empty (today filename : string) :
  exportToCSV today [] filename = [] ∧
  (∀ data, exportToCSV today data filename = [] ↔ data = []).
Proof.
  split; [reflexivity |].
  intros [|r data]; split; done.
Qed.

End Csv.

(** ** The two user-agent classifiers *)

Section UserAgent.

Import AdminUtils Spec.

Lemma test_i_spec (words : list string) (userAgent : string) :
  test_i words userAgent = true ↔ mentions words userAgent.
Proof.
  unfold test_i, mentions. rewrite existsb_exists. split.
  - intros (w & Hw & H). apply includes_spec in H as (pre & post & H).
    exists w, pre, post. split; [by apply list_elem_of_In | done].
  - intros (w & pre & post & Hw & H). exists w.
    split; [by apply list_elem_of_In |]. apply includes_spec. eauto.
Qed.

Lemma test_i_false (words : list string) (userAgent : string) :
  test_i words userAgent = false ↔ ¬ mentions words userAgent.
Proof. rewrite <- test_i_spec. by destruct (test_i words userAgent). Qed.

Lemma deviceType_unfold (userAgent : string) :
  deviceType (AdminUtils.parseUserAgent userAgent) =
  if test_i ["iPad"; "Tablet"] userAgent then tablet
  else if test_i ["Mobile"; "Android"; "iPhone"; "iPad"] userAgent then mobile
  else desktop.
Proof. reflexivity. Qed.

(** C10: the classifier of adminUtils.ts and the one of the sessions
    page give the same [deviceType] on every string: tablet when it
    mentions iPad or Tablet, else mobile when it mentions Mobile, Android,
    iPhone or iPad, else desktop; their [browser] and their [os] differ on
    some strings. *)
Theorem parseUserAgent_deviceType_agree (userAgent : string) :
  deviceType (AdminUtils.parseUserAgent userAgent) =
    deviceType (SessionsPage.parseUserAgent userAgent) ∧
  (mentions ["iPad"; "Tablet"] userAgent →
     deviceType (AdminUtils.parseUserAgent userAgent) = tablet) ∧
  (¬ mentions ["iPad"; "Tablet"] userAgent →
     mentions ["Mobile"; "Android"; "iPhone"; "iPad"] userAgent →
     deviceType (AdminUtils.parseUserAgent userAgent) = mobile) ∧
  (¬ mentions ["iPad"; "Tablet"] userAgent →
     ¬ mentions ["Mobile"; "Android"; "iPhone"; "iPad"] userAgent →
     deviceType (AdminUtils.parseUserAgent userAgent) = desktop) ∧
  (∃ ua, browser (AdminUtils.parseUserAgent ua) ≠
         browser (SessionsPage.parseUserAgent ua)) ∧
  (∃ ua, os (AdminUtils.parseUserAgent ua) ≠ os (SessionsPage.parseUserAgent ua)).
Proof.
  split_and!.
  - reflexivity.
  - intros H%test_i_spec. by rewrite deviceType_unfold, H.
  - intros H1%test_i_false H2%test_i_spec. by rewrite deviceType_unfold, H1, H2.
  - intros H1%test_i_false H2%test_i_false. by rewrite deviceType_unfold, H1, H2.
  - by exists "Opera/9.80".
  - by exists "Mozilla/5.0 (Windows NT 10.0; Win64; x64)".
Qed.

End UserAgent.

(** ** Array.prototype.sort with a comparator that orders by a key *)

Lemma NoDup_fmap_injective {A B : Type} (f : A → B) (l : list A) (a b : A) :
  NoDup (f <$> l) → a ∈ l → b ∈ l → f a = f b → a = b.
Proof.
  induction l as [|x l IH]; [by intros _ ?%elem_of_nil |].
  rewrite fmap_cons, NoDup_cons.
  intros [Hx Hnd] [->|Ha]%elem_of_cons [->|Hb]%elem_of_cons Hf; [done | | |by apply IH].
  - exfalso. apply Hx. rewrite Hf. by apply list_elem_of_fmap_2.
  - exfalso. apply Hx. rewrite <- Hf. by apply list_elem_of_fmap_2.
Qed.

Lemma StronglySorted_mono {A : Type} (R1 R2 : relation A) (l : list A) :
  (∀ x y, R1 x y → R2 x y) → StronglySorted R1 l → StronglySorted R2 l.
Proof.
  intros HR. induction 1 as [|x l Hl IH Hx]; constructor; [done |].
  eapply Forall_impl; [exact Hx | auto].
Qed.

Section SortFacts.

Context {A : Type} (comparefn : A → A → number) (key : A → Z).
Hypothesis comparefn_key :
  ∀ x y, gt (comparefn x y) zero = bool_decide (key y < key x).

Local Abbreviation le := (λ a b : A, key a <= key b).

Lemma insert_Permutation (x : A) (l : list A) :
  JsArray.insert comparefn x l ≡ₚ x :: l.
Proof.
  induction l as [|y l IH]; simpl; [done |].
  destruct (gt (comparefn x y) zero); [|done].
  rewrite IH. apply Permutation_swap.
Qed.

Lemma sort_Permutation (l : list A) : JsArray.sort comparefn l ≡ₚ l.
Proof.
  induction l as [|x l IH]; simpl; [done |].
  by rewrite insert_Permutation, IH.
Qed.

Lemma insert_sorted (x : A) (l : list A) :
  StronglySorted le l → StronglySorted le (JsArray.insert comparefn x l).
Proof.
  induction 1 as [|y l Hl IH Hy]; simpl.
  - repeat constructor.
  - rewrite comparefn_key. case_bool_decide as Hxy.
    + constructor; [done |].
      rewrite insert_Permutation. constructor; [lia | done].
    + constructor; [by constructor |].
      constructor; [lia |].
      eapply Forall_impl; [exact Hy |]. cbv beta. intros z Hz. lia.
Qed.

Lemma sort_sorted (l : list A) : StronglySorted le (JsArray.sort comparefn l).
Proof.
  induction l as [|x l IH]; simpl; [constructor | by apply insert_sorted].
Qed.

(** With pairwise distinct keys the result does not depend on the order
    of the input. *)
Lemma sort_Permutation_eq (l l' : list A) :
  NoDup (key <$> l) → l ≡ₚ l' →
  JsArray.sort comparefn l = JsArray.sort comparefn l'.
Proof.
  intros Hnd Hp.
  apply (StronglySorted_unique_strong le); [|apply sort_sorted..|].
  - intros a b Ha Hb Hab Hba.
    rewrite sort_Permutation in Ha. rewrite sort_Permutation, <- Hp in Hb.
    apply (NoDup_fmap_injective key l); [done..|]. cbv beta in *. lia.
  - by rewrite !sort_Permutation.
Qed.

End SortFacts.

(** ** Sessions page: sorting by duration *)

Section SortByDuration.

Import SessionsPage Examples.

Variable getTime : string → number.

Lemma neg_sub_pos (a b : Z) : 0 < - (a - b) ↔ - b < - a.
Proof. lia. Qed.

Lemma compare_duration_asc (x y : SessionWithDetails) :
  gt (compareSessions getTime duration asc x y) zero =
  bool_decide (durationOf y < durationOf x).
Proof.
  unfold compareSessions, zero. rewrite sub_of_Z, gt_of_Z.
  apply bool_decide_ext, Z.lt_0_sub.
Qed.

Lemma compare_duration_desc (x y : SessionWithDetails) :
  gt (compareSessions getTime duration desc x y) zero =
  bool_decide (- durationOf y < - durationOf x).
Proof.
  unfold compareSessions, zero. rewrite sub_of_Z, neg_of_Z, gt_of_Z.
  apply bool_decide_ext, neg_sub_pos.
Qed.

Lemma filtered_withSort (st : State) (key : SortKey) (order : SortOrder) :
  filtered (withSort st key order) = filtered st.
Proof. reflexivity. Qed.

Lemma sorted_asc (st : State) :
  StronglySorted (λ a b, durationOf a <= durationOf b)
    (filterAndSortSessions getTime (withSort st duration asc)).
Proof.
  apply (sort_sorted _ durationOf). apply compare_duration_asc.
Qed.

Lemma sorted_desc (st : State) :
  StronglySorted (λ a b, durationOf b <= durationOf a)
    (filterAndSortSessions getTime (withSort st duration desc)).
Proof.
  eapply StronglySorted_mono;
    [| apply (sort_sorted _ (λ s, - durationOf s)); intros x y;
       apply compare_duration_desc ].
  simpl. intros a b. lia.
Qed.

Lemma reverse_sorted {A : Type} (R : relation A) (l : list A) :
  Transitive R → StronglySorted R l → StronglySorted (flip R) (reverse l).
Proof.
  intros HR Hl. apply Sorted_StronglySorted.
  - intros a b c Hab Hbc. unfold flip in *. by transitivity b.
  - apply Sorted_reverse. by apply StronglySorted_Sorted.
Qed.

(** Whatever the input, the durations read in descending order are the
    durations read in ascending order, backwards. *)
Lemma duration_sequence_reversed (st : State) :
  durationOf <$> filterAndSortSessions getTime (withSort st duration desc) =
  reverse (durationOf <$> filterAndSortSessions getTime (withSort st duration asc)).
Proof.
  assert (AntiSymm eq (flip Z.le)) by (intros a b; unfold flip; lia).
  apply (StronglySorted_unique (flip Z.le)).
  - eapply StronglySorted_fmap; [| apply sorted_desc]. simpl. by unfold flip.
  - apply reverse_sorted; [apply _ |].
    eapply StronglySorted_fmap; [| apply sorted_asc]. done.
  - rewrite reverse_Permutation. unfold filterAndSortSessions.
    by rewrite !sort_Permutation.
Qed.

(** C4, amended: when no two of the sessions that pass the filters have
    the same duration ([timeSpent], a missing one counting as 0), the
    list sorted by duration in descending order is exactly the reverse of
    the list sorted in ascending order. *)
Theorem duration_desc_reverse_asc (st : State) :
  NoDup (durationOf <$> filtered st) →
  filterAndSortSessions getTime (withSort st duration desc) =
  reverse (filterAndSortSessions getTime (withSort st duration asc)).
Proof.
  intros Hnd.
  assert (Hperm : ∀ order,
    filterAndSortSessions getTime (withSort st duration order) ≡ₚ filtered st).
  { intros order. unfold filterAndSortSessions. by rewrite sort_Permutation. }
  apply (StronglySorted_unique_strong (λ a b, durationOf b <= durationOf a)).
  - intros a b Ha Hb Hab Hba.
    rewrite Hperm in Ha. rewrite reverse_Permutation, Hperm in Hb.
    apply (NoDup_fmap_injective durationOf (filtered st)); [done..| lia].
  - apply sorted_desc.
  - apply (reverse_sorted (λ a b, durationOf a <= durationOf b)); [|apply sorted_asc].
    intros a b c. lia.
  - by rewrite reverse_Permutation, !Hperm.
Qed.

End SortByDuration.

Section SortByDurationExamples.

Import SessionsPage Examples.

(** C4 as stated fails: two sessions with the same duration keep their
    order in both directions, so the descending list is not the ascending
    one reversed. *)
Lemma duration_ties_not_reversed :
  filterAndSortSessions noDate (page [sA; sB] asc) = [sA; sB] ∧
  filterAndSortSessions noDate (page [sA; sB] desc) = [sA; sB] ∧
  filterAndSortSessions noDate (page [sA; sB] desc) ≠
    reverse (filterAndSortSessions noDate (page [sA; sB] asc)).
Proof.
  assert (Hasc : filterAndSortSessions noDate (page [sA; sB] asc) = [sA; sB])
    by (by vm_compute).
  assert (Hdesc : filterAndSortSessions noDate (page [sA; sB] desc) = [sA; sB])
    by (by vm_compute).
  split_and!; [done..|].
  rewrite Hasc, Hdesc. by vm_compute.
Qed.

(** [duration_desc_reverse_asc] on three sessions that last 9, 5 and 0
    seconds. *)
Lemma duration_desc_reverse_asc_witness :
  NoDup (durationOf <$> filtered (page [sC; sA; sD] asc)) ∧
  filterAndSortSessions noDate (withSort (page [sC; sA; sD] asc) duration desc) =
  reverse (filterAndSortSessions noDate (withSort (page [sC; sA; sD] asc) duration asc)).
Proof.
  assert (H : NoDup (durationOf <$> filtered (page [sC; sA; sD] asc))).
  { apply (bool_decide_unpack _). by vm_compute. }
  split; [exact H |].
  apply (duration_desc_reverse_asc noDate _ H).
Defined.

End SortByDurationExamples.

(** ** Query layer: the summary *)

Section Summary.

Import AnalyticsQueries.

Lemma guarded_div_finite (a n : Z) :
  is_finite (if 0 <? n then div (of_Z a) (of_Z n) else zero) = true.
Proof.
  destruct (Z.ltb_spec 0 n) as [Hn|Hn]; [|done].
  by rewrite div_of_Z_finite.
Qed.

Lemma guarded_rate_finite (a n : Z) :
  is_finite (if 0 <? n then mul (div (of_Z a) (of_Z n)) hundred else zero) = true.
Proof.
  destruct (Z.ltb_spec 0 n) as [Hn|Hn]; [|done].
  by rewrite div_of_Z_finite.
Qed.

(** C2: on an empty list of sessions [getAnalyticsSummary] returns the
    three counts, the average time and the conversion rate all equal to
    0 and an empty [dropOffByStep]; on any list the average and the rate
    are finite numbers, never the NaN or the infinity of a division by
    zero. *)
Theorem getAnalyticsSummary_empty :
  getAnalyticsSummary [] =
    {| AnalyticsSummary.totalSessions := 0;
       AnalyticsSummary.completedSessions := 0;
       AnalyticsSummary.abandonedSessions := 0;
       AnalyticsSummary.averageTimeSpent := of_Z 0;
       AnalyticsSummary.conversionRate := of_Z 0;
       AnalyticsSummary.dropOffByStep := ∅ |} ∧
  (∀ sessions,
     is_finite (AnalyticsSummary.averageTimeSpent (getAnalyticsSummary sessions)) = true ∧
     is_finite (AnalyticsSummary.conversionRate (getAnalyticsSummary sessions)) = true).
Proof.
  split; [reflexivity |].
  intros sessions. split; [apply guarded_div_finite | apply guarded_rate_finite].
Qed.

End Summary.

(** ** Query layer: the step statistics *)

Section StepStatistics.

Import AnalyticsQueries Spec.

Implicit Types (events : list StepAnalytics.t) (d : StepData.t) (k : Z).

Lemma collect_lookup (m : gmap Z StepData.t) (a : StepAnalytics.t) k :
  collect m a !! k =
  if decide (StepAnalytics.step a = k) then entry_step (m !! k) a else m !! k.
Proof.
  unfold collect, entry_step. case_decide as Hk.
  - subst k. rewrite lookup_insert_eq. by destruct (m !! _).
  - by rewrite lookup_insert_ne.
Qed.

Lemma foldl_collect_lookup events (m : gmap Z StepData.t) k :
  foldl collect m events !! k = foldl entry_step (m !! k) (eventsOf k events).
Proof.
  revert m. induction events as [|a events IH]; intros m; [done |].
  simpl. rewrite IH, collect_lookup. unfold eventsOf.
  rewrite filter_cons. by case_decide.
Qed.

Lemma foldl_entry_step_Some d events :
  foldl entry_step (Some d) events = Some (foldl count d events).
Proof. revert d. induction events as [|a events IH]; intros d; [done | apply IH]. Qed.

Lemma timesSpent_cons (a : StepAnalytics.t) events :
  timesSpent (a :: events) =
  match StepAnalytics.timeSpent a with
  | Some t => t :: timesSpent events
  | None => timesSpent events
  end.
Proof. reflexivity. Qed.

Lemma countAction_cons (act : Action) (a : StepAnalytics.t) events :
  countAction act (a :: events) =
  (if decide (StepAnalytics.action a = act) then 1 else 0) + countAction act events.
Proof.
  unfold countAction. rewrite filter_cons. case_decide; simpl; lia.
Qed.

(** The counters after the events of a step, from the counters before. *)
Lemma foldl_count d events :
  let d' := foldl count d events in
  StepData.stepNumber d' = StepData.stepNumber d ∧
  StepData.stepName d' = StepData.stepName d ∧
  StepData.entrances d' = StepData.entrances d + countAction enter events ∧
  StepData.exits d' = StepData.exits d + countAction exit events ∧
  StepData.totalTimeSpent d' =
    StepData.totalTimeSpent d + sum (nonZero (timesSpent events)) ∧
  StepData.timeSpentCount d' =
    StepData.timeSpentCount d + Z.of_nat (length (nonZero (timesSpent events))).
Proof.
  revert d. induction events as [|a events IH]; intros d.
  { unfold countAction. simpl. repeat split; lia. }
  cbn [foldl]. destruct (IH (count d a)) as (H1 & H2 & H3 & H4 & H5 & H6).
  rewrite H1, H2, H3, H4, H5, H6. clear IH H1 H2 H3 H4 H5 H6.
  rewrite !countAction_cons, timesSpent_cons. unfold count, truthy, nonZero.
  destruct (StepAnalytics.action a), (StepAnalytics.timeSpent a) as [t|]; simpl;
    try destruct (Z.eqb_spec t 0) as [->|Ht]; simpl;
    rewrite ?filter_cons; repeat case_decide; try done; simpl;
    repeat split; lia.
Qed.

Lemma stepData_lookup events k :
  foldl collect ∅ events !! k =
  match eventsOf k events with
  | [] => None
  | a :: rest => Some (foldl count (newStepData a) (a :: rest))
  end.
Proof.
  rewrite foldl_collect_lookup, lookup_empty.
  destruct (eventsOf k events) as [|a rest]; [done |].
  cbn [foldl]. unfold entry_step at 2. by rewrite foldl_entry_step_Some.
Qed.

Lemma guarded_mean (values : list Z) :
  (if 0 <? 0 + Z.of_nat (length values)
   then div (of_Z (0 + sum values)) (of_Z (0 + Z.of_nat (length values)))
   else zero) = mean values.
Proof. destruct values as [|v values]; [done |]. unfold mean. by rewrite !Z.add_0_l. Qed.

Lemma guarded_percentage (m n : Z) :
  0 <= n →
  (if 0 <? 0 + n then mul (div (of_Z (0 + m)) (of_Z (0 + n))) hundred else zero)
  = percentage m n.
Proof.
  intros Hn. unfold percentage. rewrite !Z.add_0_l.
  destruct (Z.ltb_spec 0 n), (decide (n = 0)); try done; lia.
Qed.

Lemma toStepStats_entry k (a : StepAnalytics.t) (rest : list StepAnalytics.t) events :
  eventsOf k events = a :: rest →
  toStepStats (foldl count (newStepData a) (a :: rest)) = stepStatsOf k (a :: rest).
Proof.
  intros Hk.
  assert (Ha : StepAnalytics.step a = k).
  { assert (a ∈ eventsOf k events) as Hin by (rewrite Hk; left).
    by apply list_elem_of_filter in Hin as [? _]. }
  destruct (foldl_count (newStepData a) (a :: rest)) as (H1 & H2 & H3 & H4 & H5 & H6).
  unfold toStepStats, stepStatsOf. rewrite H1, H2, H3, H4, H5, H6.
  cbn [newStepData StepData.stepNumber StepData.stepName StepData.entrances
       StepData.exits StepData.totalTimeSpent StepData.timeSpentCount head from_option].
  rewrite guarded_mean, guarded_percentage, Ha, !Z.add_0_l; [done |].
  unfold countAction. lia.
Qed.

Lemma stepNumber_key (m : list (Z * StepData.t)) :
  (∀ k d, (k, d) ∈ m → StepData.stepNumber d = k) →
  StepStats.stepNumber <$> (toStepStats <$> m.*2) = m.*1.
Proof.
  induction m as [|[k d] m IH]; intros H; [done |].
  cbn. rewrite (H k d) by left. f_equal. apply IH.
  intros k' d' Hin. apply H. by right.
Qed.

Lemma stepData_stepNumber events k d :
  foldl collect ∅ events !! k = Some d → StepData.stepNumber d = k.
Proof.
  rewrite stepData_lookup. destruct (eventsOf k events) as [|a rest] eqn:Hk; [done |].
  intros [= <-]. pose proof (toStepStats_entry k a rest events Hk) as H.
  by apply (f_equal StepStats.stepNumber) in H.
Qed.

Lemma byStepNumber_key (a b : StepStats.t) :
  gt (byStepNumber a b) zero =
  bool_decide (StepStats.stepNumber b < StepStats.stepNumber a).
Proof.
  unfold byStepNumber, zero. rewrite sub_of_Z, gt_of_Z.
  apply bool_decide_ext, Z.lt_0_sub.
Qed.

Lemma stepNumbers_NoDup events :
  NoDup (StepStats.stepNumber <$>
           (toStepStats <$> Object_values (foldl collect ∅ events))).
Proof.
  unfold Object_values. rewrite stepNumber_key.
  - apply NoDup_fst_map_to_list.
  - intros k d Hin%elem_of_map_to_list. by eapply stepData_stepNumber.
Qed.

(** The order in which the accumulators are enumerated is irrelevant. *)
Lemma sort_Permutation_stepNumber events (values : list StepData.t) :
  values ≡ₚ Object_values (foldl collect ∅ events) →
  JsArray.sort byStepNumber (toStepStats <$> values) = getStepStats events.
Proof.
  intros Hp. symmetry.
  apply (sort_Permutation_eq _ StepStats.stepNumber);
    [apply byStepNumber_key | apply stepNumbers_NoDup | by rewrite Hp].
Qed.

Lemma StronglySorted_strict {A : Type} (key : A → Z) (l : list A) :
  StronglySorted (λ a b, key a <= key b) l → NoDup (key <$> l) →
  StronglySorted (λ a b, key a < key b) l.
Proof.
  induction 1 as [|x l Hl IH Hx]; [constructor |].
  rewrite fmap_cons, NoDup_cons. intros [Hnot Hnd].
  constructor; [by apply IH |].
  apply Forall_forall. intros y Hy.
  rewrite Forall_forall in Hx. specialize (Hx y Hy).
  assert (key x ≠ key y); [|lia].
  intros Heq. apply Hnot. rewrite Heq. by apply list_elem_of_fmap_2.
Qed.

(** What [getStepStats] returns: one entry for every step that has an
    event, in strictly ascending order of the step index, with the
    counts of entries and exits, their percentage as drop-off rate, and
    the mean of the non-zero [timeSpent] values as average. *)
Lemma getStepStats_spec events :
  StronglySorted (λ a b, StepStats.stepNumber a < StepStats.stepNumber b)
    (getStepStats events) ∧
  (∀ s, s ∈ getStepStats events ↔
        ∃ k, eventsOf k events ≠ [] ∧ s = stepStatsOf k (eventsOf k events)).
Proof.
  split.
  - apply StronglySorted_strict.
    + apply (sort_sorted _ StepStats.stepNumber), byStepNumber_key.
    + unfold getStepStats. rewrite (sort_Permutation byStepNumber).
      apply stepNumbers_NoDup.
  - intros s. unfold getStepStats. rewrite (sort_Permutation byStepNumber).
    unfold Object_values. rewrite list_elem_of_fmap. split.
    + intros (d & -> & Hd). apply list_elem_of_fmap in Hd as ([k d'] & -> & Hin).
      apply elem_of_map_to_list in Hin. exists k.
      rewrite stepData_lookup in Hin.
      destruct (eventsOf k events) as [|a rest] eqn:Hk; [done |].
      injection Hin as <-. split; [done |]. by eapply toStepStats_entry.
    + intros (k & Hne & ->).
      destruct (eventsOf k events) as [|a rest] eqn:Hk; [done |].
      exists (foldl count (newStepData a) (a :: rest)).
      split; [symmetry; by eapply toStepStats_entry |].
      apply list_elem_of_fmap. exists (k, foldl count (newStepData a) (a :: rest)).
      split; [done |]. apply elem_of_map_to_list. by rewrite stepData_lookup, Hk.
Qed.

End StepStatistics.

Section StepStatisticsExamples.

Import AnalyticsQueries Spec Examples.

Lemma guarded_div_of_Z (a n : Z) (q : Z) :
  0 < n → a = q * n →
  (if 0 <? n then div (of_Z a) (of_Z n) else zero) = of_Z q.
Proof.
  intros Hn ->. rewrite (proj2 (Z.ltb_lt 0 n) Hn), div_of_Z_finite by done.
  apply Num_eq. unfold Qc_of_Z. simpl. rewrite !Qred_correct.
  rewrite inject_Z_mult. field.
  intros H. apply (inject_Z_injective n 0) in H. lia.
Qed.

(** C1 on the events of one quick answer.  The step has one entry and one
    exit, and the [timeSpent] values 0 and 12 are present on its events:
    the drop-off rate is 100 and the mean of the values present is 6, yet
    the average returned is 12, because the value 0 is skipped as if it
    were absent. *)
Theorem getStepStats_quick_answer :
  countAction enter (eventsOf 1 quickAnswer) = 1 ∧
  countAction exit (eventsOf 1 quickAnswer) = 1 ∧
  timesSpent (eventsOf 1 quickAnswer) = [0; 12] ∧
  mean (timesSpent (eventsOf 1 quickAnswer)) = of_Z 6 ∧
  StepStats.stepNumber <$> getStepStats quickAnswer = [1] ∧
  StepStats.dropOffRate <$> getStepStats quickAnswer = [of_Z 100] ∧
  StepStats.averageTimeSpent <$> getStepStats quickAnswer = [of_Z 12].
Proof.
  assert (Hv : Object_values (foldl collect ∅ quickAnswer) =
               [ {| StepData.stepNumber := 1;
                    StepData.stepName := "Credit Score Check";
                    StepData.entrances := 1;
                    StepData.exits := 1;
                    StepData.totalTimeSpent := 12;
                    StepData.timeSpentCount := 1 |} ]) by (by vm_compute).
  split_and!.
  - by vm_compute.
  - by vm_compute.
  - by vm_compute.
  - change (timesSpent (eventsOf 1 quickAnswer)) with [0; 12].
    apply (guarded_div_of_Z 12 2 6); lia.
  - unfold getStepStats. by rewrite Hv.
  - unfold getStepStats. rewrite Hv. by vm_compute.
  - unfold getStepStats. rewrite Hv. by vm_compute.
Qed.

End StepStatisticsExamples.

(** ** The session recorder *)

Section RecorderFacts.

Import Recorder.

Context {Env error : Type}.
Variable addDoc : string → DocData → Env → completion error string * Env.
Variable updateDoc : string → SessionUpdate → Env → completion error unit * Env.
Variable now : Env → Z.
Variable toISOString : Z → string.
Variable navigator_userAgent : Env → string.

Implicit Types (s : State Env error).

Local Abbreviation initializeSession :=
  (Recorder.initializeSession addDoc now toISOString navigator_userAgent).
Local Abbreviation trackStepEnter := (Recorder.trackStepEnter addDoc now toISOString).
Local Abbreviation trackStepAnswer := (Recorder.trackStepAnswer addDoc now toISOString).
Local Abbreviation trackStepExit :=
  (Recorder.trackStepExit addDoc updateDoc now toISOString).
Local Abbreviation updateFormData := (Recorder.updateFormData updateDoc).
Local Abbreviation writes_fail := (Recorder.writes_fail addDoc updateDoc).

Ltac unfold_recorder :=
  unfold Recorder.initializeSession, Recorder.trackStepEnter,
    Recorder.trackStepAnswer, Recorder.trackStepExit, Recorder.updateFormData,
    updateSession, returns, bind, try_catch, call, log, read, get_this,
    set_this, ret;
  cbn.

Ltac case_store :=
  repeat match goal with
    | |- context [addDoc ?c ?d ?e] =>
        destruct (addDoc c d e) as [[?|?] ?]; cbn
    | |- context [updateDoc ?i ?u ?e] =>
        destruct (updateDoc i u e) as [[?|?] ?]; cbn
    | |- context [sessionDocId ?t] =>
        destruct (sessionDocId t); cbn
    end.

Lemma initializeSession_returns s : returns (initializeSession s) = true.
Proof. unfold_recorder. by case_store. Qed.

Lemma trackStepEnter_returns s step stepName :
  returns (trackStepEnter step stepName s) = true.
Proof. unfold_recorder. by case_store. Qed.

Lemma trackStepAnswer_returns s step stepName answer :
  returns (trackStepAnswer step stepName answer s) = true.
Proof. unfold_recorder. by case_store. Qed.

Lemma trackStepExit_returns s step stepName reason :
  returns (trackStepExit step stepName reason s) = true.
Proof. unfold_recorder. by case_store. Qed.

Lemma updateFormData_returns s formData :
  returns (updateFormData formData s) = true.
Proof. unfold_recorder. by case_store. Qed.

Ltac fail_store H :=
  destruct H as [Hadd Hupd];
  repeat match goal with
    | |- context [addDoc ?c ?d ?e] =>
        let err := fresh "err" in let e' := fresh "e" in let E := fresh "E" in
        destruct (Hadd c d e) as (err & e' & E); rewrite E; cbn
    | |- context [updateDoc ?i ?u ?e] =>
        let err := fresh "err" in let e' := fresh "e" in let E := fresh "E" in
        destruct (Hupd i u e) as (err & e' & E); rewrite E; cbn
    | |- context [match sessionDocId ?t with _ => _ end] =>
        destruct (sessionDocId t) eqn:?; cbn
    end.

Ltac logged :=
  split; [reflexivity |]; split; [done |];
  eexists; (split; [|split]);
  [ | | rewrite <- ?(assoc_L (++)); reflexivity ];
  [ done | reflexivity ].

Lemma initializeSession_only_logged s :
  writes_fail → only_logged (initializeSession s) s.
Proof. intros H. unfold only_logged. unfold_recorder. fail_store H. logged. Qed.

Lemma trackStepEnter_only_logged s step stepName :
  writes_fail → only_logged (trackStepEnter step stepName s) s.
Proof. intros H. unfold only_logged. unfold_recorder. fail_store H. logged. Qed.

Lemma trackStepAnswer_only_logged s step stepName answer :
  writes_fail → only_logged (trackStepAnswer step stepName answer s) s.
Proof. intros H. unfold only_logged. unfold_recorder. fail_store H. logged. Qed.

Lemma trackStepExit_only_logged s step stepName reason :
  writes_fail → only_logged (trackStepExit step stepName reason s) s.
Proof.
  intros H. unfold only_logged. unfold_recorder. fail_store H; logged.
Qed.

Lemma updateFormData_only_logged s formData :
  writes_fail → only_logged (updateFormData formData s) s.
Proof.
  intros H. unfold only_logged. unfold_recorder. fail_store H; logged.
Qed.

(** C5: whatever the store does, each of [initializeSession],
    [trackStepEnter], [trackStepAnswer], [trackStepExit] and
    [updateFormData] returns to its caller and throws nothing; when every
    write to the store fails, all a call leaves behind is error lines on
    the console. *)
Theorem recorder_never_throws s step stepName answer reason formData :
  (returns (initializeSession s) = true ∧
   returns (trackStepEnter step stepName s) = true ∧
   returns (trackStepAnswer step stepName answer s) = true ∧
   returns (trackStepExit step stepName reason s) = true ∧
   returns (updateFormData formData s) = true) ∧
  (writes_fail →
   only_logged (initializeSession s) s ∧
   only_logged (trackStepEnter step stepName s) s ∧
   only_logged (trackStepAnswer step stepName answer s) s ∧
   only_logged (trackStepExit step stepName reason s) s ∧
   only_logged (updateFormData formData s) s).
Proof.
  split.
  - split_and!;
      [ apply initializeSession_returns | apply trackStepEnter_returns
      | apply trackStepAnswer_returns | apply trackStepExit_returns
      | apply updateFormData_returns ].
  - intros H. split_and!;
      [ by apply initializeSession_only_logged | by apply trackStepEnter_only_logged
      | by apply trackStepAnswer_only_logged | by apply trackStepExit_only_logged
      | by apply updateFormData_only_logged ].
Qed.

End RecorderFacts.

Section RecorderExamples.

Import Recorder Examples.

(** With the store out of reach, leaving a step as abandoned returns and
    writes two error lines: the event was lost, and the session has no
    document to update. *)
Lemma trackStepExit_offline :
  trackStepExit offline_addDoc offline_updateDoc (λ _, 1714557612400)
    (λ _, "2024-05-01T10:00:12.400Z") 1 "Credit Score Check" abandoned fresh =
  (Return (),
   {| this := this fresh;
      env := ();
      console :=
        [ console_error "Error tracking step exit:" (Some "unavailable");
          console_error "Session document ID not available" None ] |}).
Proof. reflexivity. Qed.

End RecorderExamples.

(** ** adminUtils.ts: the other helpers *)

Section Truncate.

Import AdminUtils.

Lemma substring_prefix (n : nat) (text : string) :
  ∃ dropped,
    text = String.substring 0 n text +:+ dropped ∧
    String.length (String.substring 0 n text) = (n `min` String.length text)%nat.
Proof.
  revert n. induction text as [|c text IH]; intros [|n]; simpl.
  - by exists EmptyString.
  - by exists EmptyString.
  - by exists (String c text).
  - destruct (IH n) as (dropped & Htext & Hlen). exists dropped.
    rewrite app_String, Hlen. split; [by rewrite <- Htext | done].
Qed.

Lemma string_length_app (s t : string) :
  String.length (s +:+ t) = (String.length s + String.length t)%nat.
Proof. induction s as [|c s IH]; [done |]. rewrite app_String. simpl. by rewrite IH. Qed.

(** [truncateText] returns a text that fits unchanged; a longer text
    keeps its first [maxLength] characters (none for a negative
    [maxLength]) and gets three dots, so that the result has
    [maxLength + 3] characters, which can be more than the text had. *)
Theorem truncateText_spec (text : string) (maxLength : Z) :
  (Z.of_nat (String.length text) <= maxLength → truncateText text maxLength = text) ∧
  (maxLength < Z.of_nat (String.length text) →
   ∃ kept dropped,
     text = kept +:+ dropped ∧
     (0 <= maxLength → dropped ≠ EmptyString) ∧
     String.length kept = Z.to_nat maxLength ∧
     truncateText text maxLength = kept +:+ "..." ∧
     String.length (truncateText text maxLength) = (Z.to_nat maxLength + 3)%nat).
Proof.
  unfold truncateText, substring0. split; intros H.
  - by rewrite (proj2 (Z.leb_le _ _) H).
  - rewrite (proj2 (Z.leb_gt _ _) H).
    destruct (substring_prefix (Z.to_nat maxLength) text) as (dropped & Htext & Hlen).
    assert (Hkept : String.length (String.substring 0 (Z.to_nat maxLength) text)
                    = Z.to_nat maxLength).
    { rewrite Hlen. apply Nat.min_l. lia. }
    exists (String.substring 0 (Z.to_nat maxLength) text), dropped.
    split_and!; [done | | done | done |].
    + intros Hpos ->. apply (f_equal String.length) in Htext.
      rewrite string_length_app, Hkept in Htext. simpl in Htext. lia.
    + by rewrite string_length_app, Hkept.
Qed.

End Truncate.

Section PercentChange.

Import AdminUtils.

Lemma zero_Num : zero = Num 0%Qc.
Proof. by apply Num_eq. Qed.

Lemma strict_eq_Num_zero (q : Qc) : strict_eq (Num q) zero = bool_decide (q = 0%Qc).
Proof. rewrite zero_Num. reflexivity. Qed.


End PercentChange.

(** ** Stability of the sort *)

Section SortStable.

Context {A : Type} (comparefn : A → A → number) (key : A → Z).
Hypothesis comparefn_key :
  ∀ x y, gt (comparefn x y) zero = bool_decide (key y < key x).

Lemma insert_filter_key (k : Z) (x : A) (l : list A) :
  filter (λ a, key a = k) (JsArray.insert comparefn x l) =
  filter (λ a, key a = k) (x :: l).
Proof.
  induction l as [|y l IH]; simpl; [done |].
  rewrite comparefn_key. case_bool_decide as Hxy; [|done].
  rewrite (filter_cons _ y), IH, !(filter_cons _ x), (filter_cons _ y).
  repeat case_decide; try done; lia.
Qed.

(** Elements with the same key come out in the order they went in. *)
Lemma sort_filter_key (k : Z) (l : list A) :
  filter (λ a, key a = k) (JsArray.sort comparefn l) = filter (λ a, key a = k) l.
Proof.
  induction l as [|x l IH]; simpl; [done |].
  by rewrite insert_filter_key, !filter_cons, IH.
Qed.

End SortStable.

Section SortBy.

Import AdminUtils.

Context {T : Type} (key : T → Z).

Lemma sortBy_asc_key (x y : T) :
  gt (if key x <? key y then of_Z (-1)
      else if key x >? key y then of_Z 1 else zero) zero
  = bool_decide (key y < key x).
Proof.
  unfold zero. destruct (Z.ltb_spec (key x) (key y)), (Z.gtb_spec (key x) (key y));
    rewrite gt_of_Z; apply bool_decide_ext; lia.
Qed.

Lemma sortBy_desc_key (x y : T) :
  gt (if key x <? key y then of_Z 1
      else if key x >? key y then of_Z (-1) else zero) zero
  = bool_decide (- key y < - key x).
Proof.
  unfold zero. destruct (Z.ltb_spec (key x) (key y)), (Z.gtb_spec (key x) (key y));
    rewrite gt_of_Z; apply bool_decide_ext; lia.
Qed.

(** [sortBy] returns the elements of the array, each as often as it
    occurs, in ascending order of the key (descending for ['desc']);
    elements with equal keys keep the order they had in the array, in
    both directions. *)
Theorem sortBy_spec (array : list T) (k : Z) :
  sortBy array key dir_asc ≡ₚ array ∧
  sortBy array key dir_desc ≡ₚ array ∧
  StronglySorted (λ a b, key a <= key b) (sortBy array key dir_asc) ∧
  StronglySorted (λ a b, key b <= key a) (sortBy array key dir_desc) ∧
  filter (λ a, key a = k) (sortBy array key dir_asc) = filter (λ a, key a = k) array ∧
  filter (λ a, key a = k) (sortBy array key dir_desc) = filter (λ a, key a = k) array.
Proof.
  unfold sortBy. split_and!.
  - apply sort_Permutation.
  - apply sort_Permutation.
  - apply (sort_sorted _ key). intros x y. apply sortBy_asc_key.
  - eapply StronglySorted_mono;
      [| apply (sort_sorted _ (λ a, - key a)); intros x y; apply sortBy_desc_key].
    simpl. intros a b. lia.
  - apply (sort_filter_key _ key). intros x y. apply sortBy_asc_key.
  - transitivity (filter (λ a, - key a = - k)
                    (JsArray.sort
                       (λ a b, if key a <? key b then of_Z 1
                               else if key a >? key b then of_Z (-1) else zero)
                       array)).
    { apply list_filter_iff. intros a. lia. }
    rewrite (sort_filter_key _ (λ a, - key a)) by (intros x y; apply sortBy_desc_key).
    apply list_filter_iff. intros a. lia.
Qed.

End SortBy.

Section GroupBy.

Import AdminUtils Spec.

Context {T : Type} (key : T → string).

Lemma groupBy_snoc (array : list T) (item : T) :
  groupBy (array ++ [item]) key = addToGroup key (groupBy array key) item.
Proof. unfold groupBy. by rewrite foldl_app. Qed.

Lemma nonempty_snoc (xs : list T) (x : T) : nonempty (xs ++ [x]) = Some (xs ++ [x]).
Proof. by destruct xs. Qed.

Lemma nonempty_None (xs : list T) : nonempty xs = None → xs = [].
Proof. by destruct xs. Qed.

(** [groupBy] throws exactly when the key of some element is the name of
    a property that objects inherit (constructor, toString, ...).
    Otherwise the result has, for every key that occurs, the elements with
    that key in the order of the array, and no entry for any other key. *)
Theorem groupBy_spec (array : list T) :
  match groupBy array key with
  | Some groups =>
      Forall (λ x, key x ∉ Object_prototype_names) array ∧
      ∀ k, groups !! k = nonempty (filter (λ x, key x = k) array)
  | None => Exists (λ x, key x ∈ Object_prototype_names) array
  end.
Proof.
  induction array as [|item array IH] using rev_ind.
  { simpl. split; [constructor | done]. }
  rewrite groupBy_snoc.
  destruct (groupBy array key) as [groups|]; simpl.
  - destruct IH as [Hok Hgroups].
    destruct (groups !! key item) as [members|] eqn:Hitem.
    + rewrite Hgroups in Hitem.
      destruct (filter (λ x, key x = key item) array) as [|y ys] eqn:Hf; [done |].
      injection Hitem as <-.
      assert (key item ∉ Object_prototype_names) as Hnew.
      { assert (y ∈ filter (λ x, key x = key item) array) as Hy by (rewrite Hf; left).
        apply list_elem_of_filter in Hy as [Hky Hy].
        rewrite Forall_forall in Hok. rewrite <- Hky. by apply Hok. }
      split; [apply Forall_app; by repeat constructor |].
      intros k. rewrite filter_app, filter_cons, filter_nil.
      destruct (decide (key item = k)) as [<-|Hk].
      * by rewrite lookup_insert_eq, Hf.
      * rewrite lookup_insert_ne by done. by rewrite app_nil_r.
    + rewrite Hgroups in Hitem. apply nonempty_None in Hitem.
      case_bool_decide as Hname.
      * apply Exists_app. right. by left.
      * split; [apply Forall_app; by repeat constructor |].
        intros k. rewrite filter_app, filter_cons, filter_nil.
        destruct (decide (key item = k)) as [<-|Hk].
        -- rewrite lookup_insert_eq. by rewrite Hitem.
        -- rewrite lookup_insert_ne by done. by rewrite app_nil_r.
  - apply Exists_app. by left.
Qed.

End GroupBy.

(** ** The classifiers: browser, operating system, device *)

Section Classifiers.

Import AdminUtils Spec.

(** The two classifiers name the same browser, except that the page's
    copy does not know Opera; and since Chrome, Firefox and Safari are
    looked for first, Edge is reported only for a string that names none
    of the three. *)
Theorem parseUserAgent_browser (userAgent : string) :
  browser (AdminUtils.parseUserAgent userAgent) =
    (if String.eqb (browser (SessionsPage.parseUserAgent userAgent)) "Unknown"
        && includes userAgent "Opera"
     then "Opera"
     else browser (SessionsPage.parseUserAgent userAgent)) ∧
  (browser (AdminUtils.parseUserAgent userAgent) = "Edge" ↔
   includes userAgent "Edge" = true ∧ includes userAgent "Chrome" = false ∧
   includes userAgent "Firefox" = false ∧ includes userAgent "Safari" = false).
Proof.
  unfold AdminUtils.parseUserAgent, SessionsPage.parseUserAgent. cbn [browser].
  destruct (includes userAgent "Chrome"), (includes userAgent "Firefox"),
    (includes userAgent "Safari"), (includes userAgent "Edge"),
    (includes userAgent "Opera"); cbn; (split; [reflexivity |]);
    (split; [try discriminate; by intros _ | by intros (? & ? & ? & ?)]).
Qed.

(** The operating system is the first of the list that matches: a string
    that names Mac OS X is never reported as iOS, and one that names Linux
    never as Android, by either classifier. *)
Theorem parseUserAgent_os_shadowed (userAgent : string) :
  (os (AdminUtils.parseUserAgent userAgent) = "iOS" →
   includes userAgent "Mac OS X" = false ∧ includes userAgent "Linux" = false) ∧
  (os (AdminUtils.parseUserAgent userAgent) = "Android" →
   includes userAgent "Linux" = false) ∧
  (os (SessionsPage.parseUserAgent userAgent) = "iOS" →
   includes userAgent "Mac" = false ∧ includes userAgent "Linux" = false) ∧
  (os (SessionsPage.parseUserAgent userAgent) = "Android" →
   includes userAgent "Linux" = false).
Proof.
  unfold AdminUtils.parseUserAgent, SessionsPage.parseUserAgent. cbn [os].
  split_and!.
  - destruct (includes userAgent "Windows NT 10"), (includes userAgent "Windows NT 6.3"),
      (includes userAgent "Windows NT 6.1"), (includes userAgent "Windows"),
      (includes userAgent "Mac OS X"), (includes userAgent "Linux"),
      (includes userAgent "Android"); try discriminate; by intros _.
  - destruct (includes userAgent "Windows NT 10"), (includes userAgent "Windows NT 6.3"),
      (includes userAgent "Windows NT 6.1"), (includes userAgent "Windows"),
      (includes userAgent "Mac OS X"), (includes userAgent "Linux");
      try discriminate; by intros _.
  - destruct (includes userAgent "Windows"), (includes userAgent "Mac"),
      (includes userAgent "Linux"), (includes userAgent "Android");
      try discriminate; by intros _.
  - destruct (includes userAgent "Windows"), (includes userAgent "Mac"),
      (includes userAgent "Linux"); try discriminate; by intros _.
Qed.

Lemma test_i_tablet (userAgent : string) :
  test_i ["iPad"; "Tablet"] userAgent =
  includes (toLowerCase userAgent) "ipad" || includes (toLowerCase userAgent) "tablet".
Proof. unfold test_i. cbn. by rewrite orb_false_r. Qed.

Lemma test_i_mobile (userAgent : string) :
  test_i ["Mobile"; "Android"; "iPhone"; "iPad"] userAgent =
  includes (toLowerCase userAgent) "mobile" || includes (toLowerCase userAgent) "android"
  || includes (toLowerCase userAgent) "iphone" || includes (toLowerCase userAgent) "ipad".
Proof. unfold test_i. cbn. by rewrite orb_false_r, !orb_assoc. Qed.

Lemma test_i_phone (userAgent : string) :
  test_i ["Mobile"; "Android"; "iPhone"] userAgent =
  includes (toLowerCase userAgent) "mobile" || includes (toLowerCase userAgent) "android"
  || includes (toLowerCase userAgent) "iphone".
Proof. unfold test_i. cbn. by rewrite orb_false_r, !orb_assoc. Qed.

(** The device breakdown of the dashboard and [parseUserAgent] agree on
    what is a desktop, and otherwise differ in one way only: a string
    that mentions iPad or Tablet and also Mobile, Android or iPhone is a
    tablet for [parseUserAgent] and a mobile for the dashboard. *)
Theorem deviceOf_parseUserAgent (session : UserSession.t) :
  let d := Dashboard.deviceOf session in
  let p := deviceType (AdminUtils.parseUserAgent (UserSession.userAgent session)) in
  (d = p ∨ (d = mobile ∧ p = tablet)) ∧
  (d = desktop ↔ p = desktop) ∧
  (d = mobile ∧ p = tablet ↔
   mentions ["iPad"; "Tablet"] (UserSession.userAgent session) ∧
   mentions ["Mobile"; "Android"; "iPhone"] (UserSession.userAgent session)).
Proof.
  cbv zeta. rewrite <- !test_i_spec, deviceType_unfold.
  rewrite test_i_tablet, test_i_mobile, test_i_phone. unfold Dashboard.deviceOf.
  destruct (includes (toLowerCase (UserSession.userAgent session)) "mobile"),
    (includes (toLowerCase (UserSession.userAgent session)) "android"),
    (includes (toLowerCase (UserSession.userAgent session)) "iphone"),
    (includes (toLowerCase (UserSession.userAgent session)) "ipad"),
    (includes (toLowerCase (UserSession.userAgent session)) "tablet"); cbn;
    (split_and!; [by auto | by split | split; [by intros [? ?] | by intros [? ?]]]).
Qed.

End Classifiers.

(** ** adminUtils.ts: more on the CSV export *)

Section CsvColumns.

Import AdminUtils Spec.

Lemma get_missing (r : row) (h : string) : h ∉ Object_keys r → get r h = VUndefined.
Proof.
  induction r as [|[k v] r IH]; [done |].
  unfold Object_keys. cbn. intros Hh.
  destruct (String.eqb_spec k h) as [->|Hk].
  - exfalso. apply Hh. left.
  - apply IH. intros Hin. apply Hh. by right.
Qed.

Lemma csvRow_ext (headers : list string) (r r' : row) :
  (∀ h, h ∈ headers → get r h = get r' h) → csvRow headers r = csvRow headers r'.
Proof.
  intros H. unfold csvRow. f_equal. apply map_ext_in. intros h Hh.
  by rewrite H by by apply list_elem_of_In.
Qed.


(** Doubling the double quotes loses nothing: two texts that are
    written the same way are the same text. *)
Theorem double_quotes_injective (s1 s2 : string) :
  double_quotes s1 = double_quotes s2 → s1 = s2.
Proof.
  revert s2. induction s1 as [|c1 s1 IH]; intros [|c2 s2]; simpl.
  - done.
  - by destruct (Ascii.eqb c2 dquote).
  - by destruct (Ascii.eqb c1 dquote).
  - destruct (Ascii.eqb_spec c1 dquote) as [->|H1],
      (Ascii.eqb_spec c2 dquote) as [->|H2].
    + intros [= H]. f_equal. by apply IH.
    + intros [= H _]. by subst c2.
    + intros [= H _]. by subst c1.
    + intros [= -> H]. f_equal. by apply IH.
Qed.

(** [double_quotes_injective] on the text made of one double quote. *)
Lemma double_quotes_injective_witness :
  double_quotes (char dquote) = double_quotes (char dquote) ∧ char dquote = char dquote.
Proof.
  split; [reflexivity |].
  apply (double_quotes_injective (char dquote) (char dquote)). reflexivity.
Defined.

End CsvColumns.

(** ** Query layer: the summary of any list of sessions *)

Section SummaryFacts.

Import AnalyticsQueries Spec.

Implicit Types (sessions : list UserSession.t) (k : Z).

Lemma ExitReason_eqb_spec (o : option ExitReason) (r : ExitReason) :
  ExitReason_eqb o r = true ↔ o = Some r.
Proof. destruct o as [[]|], r; simpl; split; (done || by intros [=]). Qed.

Lemma filter_eqb sessions (r : ExitReason) :
  filter (λ s, ExitReason_eqb (UserSession.exitReason s) r = true) sessions =
  endedWith r sessions.
Proof. apply list_filter_iff. intros s. apply ExitReason_eqb_spec. Qed.

Lemma summary_counts sessions :
  AnalyticsSummary.totalSessions (getAnalyticsSummary sessions) =
    Z.of_nat (length sessions) ∧
  AnalyticsSummary.completedSessions (getAnalyticsSummary sessions) =
    Z.of_nat (length (endedWith completed sessions)) ∧
  AnalyticsSummary.abandonedSessions (getAnalyticsSummary sessions) =
    Z.of_nat (length (endedWith abandoned sessions)).
Proof.
  unfold getAnalyticsSummary, array_length. cbn. by rewrite !filter_eqb.
Qed.

Lemma length_three_way sessions :
  (length (endedWith completed sessions) + length (endedWith abandoned sessions)
   + length (filter (λ s, UserSession.exitReason s ≠ Some completed
                          ∧ UserSession.exitReason s ≠ Some abandoned) sessions)
   = length sessions)%nat.
Proof.
  unfold endedWith. induction sessions as [|s sessions IH]; [done |].
  rewrite !filter_cons.
  destruct (UserSession.exitReason s) as [[]|];
    repeat case_decide; try done; simpl; try lia; exfalso; intuition congruence.
Qed.

(** The counts of the summary: every session is counted once, as
    completed, as abandoned, or as neither; what the analytics page charts
    as in progress is the sessions that are neither, the ineligible ones
    included, and the three values of the chart add up to the total. *)
Theorem summary_counts_partition sessions :
  let summary := getAnalyticsSummary sessions in
  AnalyticsSummary.totalSessions summary = Z.of_nat (length sessions) ∧
  AnalyticsSummary.completedSessions summary =
    Z.of_nat (length (endedWith completed sessions)) ∧
  AnalyticsSummary.abandonedSessions summary =
    Z.of_nat (length (endedWith abandoned sessions)) ∧
  AnalyticsPage.statusChartData summary =
    [ ("Completed", Z.of_nat (length (endedWith completed sessions)));
      ("Abandoned", Z.of_nat (length (endedWith abandoned sessions)));
      ("In Progress",
        Z.of_nat (length (filter (λ s, UserSession.exitReason s ≠ Some completed
                                       ∧ UserSession.exitReason s ≠ Some abandoned)
                                 sessions))) ].
Proof.
  cbv zeta. destruct (summary_counts sessions) as (Ht & Hc & Ha).
  split_and!; [done..|].
  unfold AnalyticsPage.statusChartData. rewrite Ht, Hc, Ha.
  pose proof (length_three_way sessions). repeat f_equal. lia.
Qed.

End SummaryFacts.

Section DropOffByStep.

Import AnalyticsQueries Spec.

Implicit Types (sessions : list UserSession.t) (k : Z) (m : gmap Z Z).

Lemma countDropOff_lookup m (s : UserSession.t) k :
  countDropOff m s !! k =
  if decide (UserSession.exitReason s = Some abandoned ∧ UserSession.currentStep s = Some k)
  then Some (default 0 (m !! k) + 1)
  else m !! k.
Proof.
  unfold countDropOff.
  destruct (UserSession.currentStep s) as [step|];
    [|rewrite decide_False; [done | by intros [_ ?]]].
  destruct (ExitReason_eqb (UserSession.exitReason s) abandoned) eqn:E.
  - apply ExitReason_eqb_spec in E. destruct (decide (step = k)) as [->|Hk].
    + rewrite lookup_insert_eq. by rewrite decide_True.
    + rewrite lookup_insert_ne by done. rewrite decide_False; [done |].
      intros [_ [= ?]]. done.
  - rewrite decide_False; [done |]. intros [H _].
    apply ExitReason_eqb_spec in H. congruence.
Qed.

Lemma abandonedAt_cons (s : UserSession.t) sessions k :
  abandonedAt k (s :: sessions) =
  if decide (UserSession.exitReason s = Some abandoned ∧ UserSession.currentStep s = Some k)
  then s :: abandonedAt k sessions
  else abandonedAt k sessions.
Proof.
  unfold abandonedAt, endedWith. rewrite filter_cons.
  destruct (decide (UserSession.exitReason s = Some abandoned)) as [Hr|Hr].
  - rewrite filter_cons.
    destruct (decide (UserSession.currentStep s = Some k)) as [Hk|Hk].
    + by rewrite decide_True.
    + rewrite decide_False; [done | by intros [_ ?]].
  - rewrite decide_False; [done | by intros [? _]].
Qed.

Lemma foldl_countDropOff_lookup sessions m k :
  foldl countDropOff m sessions !! k =
  if decide (abandonedAt k sessions = [])
  then m !! k
  else Some (default 0 (m !! k) + Z.of_nat (length (abandonedAt k sessions))).
Proof.
  revert m. induction sessions as [|s sessions IH]; intros m; [done |].
  cbn [foldl]. rewrite IH, countDropOff_lookup, abandonedAt_cons.
  destruct (decide (UserSession.exitReason s = Some abandoned
                    ∧ UserSession.currentStep s = Some k)) as [Hs|Hs].
  - rewrite (decide_False (P := _ :: _ = [])) by done.
    case_decide as Hrest; [rewrite Hrest |]; simpl; f_equal; lia.
  - done.
Qed.

Lemma total_insert m k (n : Z) :
  total (<[k := n]> m) = total m - default 0 (m !! k) + n.
Proof.
  unfold total. destruct (m !! k) as [v|] eqn:Hk; simpl.
  - rewrite <- insert_delete_eq.
    rewrite map_fold_insert_L; [| intros; lia | apply lookup_delete_eq].
    rewrite (map_fold_delete_L _ _ k v m); [lia | intros; lia | done].
  - rewrite map_fold_insert_L; [lia | intros; lia | done].
Qed.

Lemma total_countDropOff m (s : UserSession.t) :
  total (countDropOff m s) =
  total m + (if decide (UserSession.exitReason s = Some abandoned
                        ∧ is_Some (UserSession.currentStep s)) then 1 else 0).
Proof.
  unfold countDropOff.
  destruct (UserSession.currentStep s) as [step|];
    [|rewrite decide_False; [lia | by intros [_ [? ?]]]].
  destruct (ExitReason_eqb (UserSession.exitReason s) abandoned) eqn:E.
  - apply ExitReason_eqb_spec in E. rewrite decide_True by eauto.
    rewrite total_insert. lia.
  - rewrite decide_False; [lia |]. intros [H _].
    apply ExitReason_eqb_spec in H. congruence.
Qed.

Lemma total_foldl_countDropOff sessions m :
  total (foldl countDropOff m sessions) =
  total m + Z.of_nat (length (filter (λ s, is_Some (UserSession.currentStep s))
                                     (endedWith abandoned sessions))).
Proof.
  revert m. induction sessions as [|s sessions IH]; intros m; [simpl; lia |].
  cbn [foldl]. rewrite IH, total_countDropOff. unfold endedWith.
  rewrite filter_cons.
  destruct (decide (UserSession.exitReason s = Some abandoned)) as [Hr|Hr].
  - rewrite filter_cons.
    destruct (decide (is_Some (UserSession.currentStep s))) as [Hc|Hc].
    + rewrite decide_True by done. simpl. lia.
    + rewrite decide_False by (by intros [_ ?]). lia.
  - rewrite decide_False by (by intros [? _]). lia.
Qed.

(** [dropOffByStep] has an entry for a step exactly when some session was
    abandoned at that step, and the entry is the number of these
    sessions; the entries add up to the number of abandoned sessions that
    have a current step. *)
Theorem dropOffByStep_spec sessions k :
  AnalyticsSummary.dropOffByStep (getAnalyticsSummary sessions) !! k =
    (if decide (abandonedAt k sessions = []) then None
     else Some (Z.of_nat (length (abandonedAt k sessions)))) ∧
  total (AnalyticsSummary.dropOffByStep (getAnalyticsSummary sessions)) =
    Z.of_nat (length (filter (λ s, is_Some (UserSession.currentStep s))
                             (endedWith abandoned sessions))).
Proof.
  unfold getAnalyticsSummary. cbn [AnalyticsSummary.dropOffByStep]. split.
  - rewrite foldl_countDropOff_lookup, lookup_empty. by case_decide.
  - rewrite total_foldl_countDropOff. unfold total. by rewrite map_fold_empty.
Qed.

End DropOffByStep.

(** ** Rates of the query layer and of the dashboard *)

Section RateFacts.

Import AdminUtils AnalyticsQueries Spec.

Lemma percent_between (c t : Z) :
  0 <= c <= t → 0 < t → between 0 100 (mul (div (of_Z c) (of_Z t)) hundred).
Proof.
  intros [Hc Hct] Ht. rewrite div_of_Z_finite by done.
  eexists. split; [reflexivity |].
  assert (0 < inject_Z t)%Q as Ht'.
  { change 0%Q with (inject_Z 0). by rewrite <- Zlt_Qlt. }
  assert (0 <= inject_Z c / inject_Z t)%Q as H0.
  { apply Qle_shift_div_l; [done |]. rewrite Qmult_0_l.
    change 0%Q with (inject_Z 0). by rewrite <- Zle_Qle. }
  assert (inject_Z c / inject_Z t <= 1)%Q as H1.
  { apply Qle_shift_div_r; [done |]. rewrite Qmult_1_l. by rewrite <- Zle_Qle. }
  unfold Qcle, Qc_of_Z. simpl. rewrite !Qred_correct. split.
  - change (inject_Z 0) with (0 * inject_Z 100)%Q.
    apply Qmult_le_compat_r; [exact H0 | done].
  - rewrite <- (Qmult_1_l (inject_Z 100)) at 2.
    apply Qmult_le_compat_r; [exact H1 | done].
Qed.

Lemma guarded_rate_helper (c t : Z) :
  0 <= t →
  (if 0 <? t then mul (div (of_Z c) (of_Z t)) hundred else zero) =
  getConversionRate (of_Z c) (of_Z t).
Proof.
  intros Ht. unfold getConversionRate, zero. rewrite strict_eq_of_Z.
  destruct (Z.ltb_spec 0 t); case_bool_decide; try done; lia.
Qed.

(** The conversion rate of the summary is what [getConversionRate] gives
    for the two counts, and it lies between 0 and 100. *)
Theorem conversionRate_spec (sessions : list UserSession.t) :
  let summary := getAnalyticsSummary sessions in
  AnalyticsSummary.conversionRate summary =
    getConversionRate (of_Z (AnalyticsSummary.completedSessions summary))
                      (of_Z (AnalyticsSummary.totalSessions summary)) ∧
  between 0 100 (AnalyticsSummary.conversionRate summary).
Proof.
  cbv zeta. destruct (summary_counts sessions) as (Ht & Hc & _).
  assert (AnalyticsSummary.conversionRate (getAnalyticsSummary sessions) =
          if 0 <? AnalyticsSummary.totalSessions (getAnalyticsSummary sessions)
          then mul (div (of_Z (AnalyticsSummary.completedSessions (getAnalyticsSummary sessions)))
                        (of_Z (AnalyticsSummary.totalSessions (getAnalyticsSummary sessions))))
                   hundred
          else zero) as Hrate by reflexivity.
  pose proof (length_three_way sessions) as Hlen.
  split.
  - rewrite Hrate. apply guarded_rate_helper. lia.
  - rewrite Hrate, Ht, Hc. destruct (Z.ltb_spec 0 (Z.of_nat (length sessions))).
    + apply percent_between; lia.
    + exists (Qc_of_Z 0). by split.
Qed.

(** The abandonment rate of the dashboard is not guarded: it is NaN when
    the period has no session, and a number between 0 and 100 otherwise. *)
Theorem abandonmentRate_spec (sessions : list UserSession.t) :
  (sessions = [] → Dashboard.abandonmentRate (getAnalyticsSummary sessions) = NaN) ∧
  (sessions ≠ [] →
   between 0 100 (Dashboard.abandonmentRate (getAnalyticsSummary sessions))).
Proof.
  split.
  - intros ->. reflexivity.
  - intros Hne. unfold Dashboard.abandonmentRate.
    destruct (summary_counts sessions) as (Ht & _ & Ha). rewrite Ht, Ha.
    pose proof (length_three_way sessions) as Hlen.
    apply percent_between; [lia |]. destruct sessions; [done | simpl; lia].
Qed.

End RateFacts.

Section StepRates.

Import AdminUtils AnalyticsQueries Spec.

Implicit Types (events : list StepAnalytics.t).

Lemma elem_of_getStepStats events (s : StepStats.t) :
  s ∈ getStepStats events →
  ∃ k, eventsOf k events ≠ [] ∧ s = stepStatsOf k (eventsOf k events).
Proof.
  unfold getStepStats. rewrite (sort_Permutation byStepNumber).
  unfold Object_values. rewrite list_elem_of_fmap.
  intros (d & -> & Hd). apply list_elem_of_fmap in Hd as ([k d'] & -> & Hin).
  apply elem_of_map_to_list in Hin. exists k.
  rewrite stepData_lookup in Hin.
  destruct (eventsOf k events) as [|a rest] eqn:Hk; [done |].
  injection Hin as <-. split; [done |]. by eapply toStepStats_entry.
Qed.

Lemma percentage_getDropOffRate (m n : Z) :
  percentage m n = getDropOffRate (of_Z m) (of_Z n).
Proof.
  unfold percentage, getDropOffRate, zero. rewrite strict_eq_of_Z.
  by destruct (decide (n = 0)); [rewrite bool_decide_true | rewrite bool_decide_false].
Qed.

Lemma countAction_bounds (act : Action) events :
  0 <= countAction act events <= Z.of_nat (length events).
Proof.
  unfold countAction. pose proof (length_filter (λ a, StepAnalytics.action a = act) events).
  lia.
Qed.

(** Every entry of [getStepStats] has the drop-off rate that
    [getDropOffRate] gives for its two counts, and finite rate and
    average; the counts are not negative, and a step is listed only if it
    has an event. *)
Theorem stepStats_rates events :
  Forall
    (λ s,
       StepStats.dropOffRate s =
         getDropOffRate (of_Z (StepStats.exits s)) (of_Z (StepStats.entrances s)) ∧
       is_finite (StepStats.dropOffRate s) = true ∧
       is_finite (StepStats.averageTimeSpent s) = true ∧
       0 <= StepStats.entrances s ∧ 0 <= StepStats.exits s ∧
       eventsOf (StepStats.stepNumber s) events ≠ [])
    (getStepStats events).
Proof.
  apply Forall_forall. intros s (k & Hne & ->)%elem_of_getStepStats.
  cbn [stepStatsOf StepStats.dropOffRate StepStats.exits StepStats.entrances
       StepStats.averageTimeSpent StepStats.stepNumber].
  pose proof (countAction_bounds enter (eventsOf k events)) as He.
  pose proof (countAction_bounds exit (eventsOf k events)) as Hx.
  split_and!; [apply percentage_getDropOffRate | | | lia | lia | done].
  - unfold percentage. destruct (decide _); [done |].
    by rewrite div_of_Z_finite by lia.
  - rewrite <- guarded_mean. apply guarded_div_finite.
Qed.

End StepRates.

(** ** The dashboard: device breakdown and top exit step *)

Section DashboardFacts.

Import AdminUtils Dashboard.

Lemma countDevices_from (counts : DeviceCounts) (sessions : list UserSession.t) :
  let result := foldl countDevice counts sessions in
  mobileUsers result =
    mobileUsers counts + Z.of_nat (length (filter (λ s, deviceOf s = mobile) sessions)) ∧
  tabletUsers result =
    tabletUsers counts + Z.of_nat (length (filter (λ s, deviceOf s = tablet) sessions)) ∧
  desktopUsers result =
    desktopUsers counts + Z.of_nat (length (filter (λ s, deviceOf s = desktop) sessions)).
Proof.
  revert counts. induction sessions as [|s sessions IH]; intros counts.
  { simpl. lia. }
  cbn [foldl]. destruct (IH (countDevice counts s)) as (Hm & Ht & Hd).
  cbv zeta. rewrite Hm, Ht, Hd, !filter_cons. unfold countDevice.
  destruct (deviceOf s); repeat case_decide; try done; simpl; lia.
Qed.

(** The device breakdown counts every session once: each of the three
    numbers is the number of sessions of that class, and together they
    are the number of sessions. *)
Theorem countDevices_spec (sessions : list UserSession.t) :
  mobileUsers (countDevices sessions) =
    Z.of_nat (length (filter (λ s, deviceOf s = mobile) sessions)) ∧
  tabletUsers (countDevices sessions) =
    Z.of_nat (length (filter (λ s, deviceOf s = tablet) sessions)) ∧
  desktopUsers (countDevices sessions) =
    Z.of_nat (length (filter (λ s, deviceOf s = desktop) sessions)) ∧
  mobileUsers (countDevices sessions) + tabletUsers (countDevices sessions)
  + desktopUsers (countDevices sessions) = Z.of_nat (length sessions).
Proof.
  unfold countDevices.
  destruct (countDevices_from {| mobileUsers := 0; desktopUsers := 0; tabletUsers := 0 |}
              sessions) as (Hm & Ht & Hd).
  cbv zeta in *. simpl in Hm, Ht, Hd. rewrite Hm, Ht, Hd. split_and!; [done..|].
  clear. induction sessions as [|s sessions IH]; [done |].
  rewrite !filter_cons. destruct (deviceOf s); repeat case_decide; try done; simpl; lia.
Qed.

End DashboardFacts.

Section TopExitStep.

Import Dashboard.

Implicit Types (stepStats : list StepStats.t).

Local Abbreviation rate := StepStats.dropOffRate.

Lemma or_zero_finite (a : number) : is_finite a = true → or_zero (Some a) = a.
Proof.
  destruct a as [q| | |]; try done. intros _. simpl.
  destruct (decide (q = 0%Qc)) as [->|]; [apply zero_Num | done].
Qed.

Lemma at_index_of_nat {A : Type} (xs : list A) (i : nat) :
  at_index xs (Z.of_nat i) = xs !! i.
Proof. unfold at_index. rewrite (proj2 (Z.ltb_ge _ _)) by lia. by rewrite Nat2Z.id. Qed.

Lemma gt_irrefl (a : number) : gt a a = false.
Proof.
  destruct a as [q| | |]; try done. simpl. apply bool_decide_false.
  apply Qcle_not_lt, Qcle_refl.
Qed.

Lemma gt_le_lt (a b c : number) :
  is_finite a = true → is_finite b = true → is_finite c = true →
  gt a b = false → gt c b = true → gt a c = false ∧ gt c a = true.
Proof.
  destruct a as [x| | |], b as [y| | |], c as [z| | |]; try done. simpl.
  intros _ _ _ Hxy%bool_decide_eq_false Hyz%bool_decide_eq_true.
  apply Qcnot_lt_le in Hxy.
  assert (x < z)%Qc by (by eapply Qcle_lt_trans).
  split; [apply bool_decide_false, Qcle_not_lt, Qclt_le_weak | apply bool_decide_true]; done.
Qed.

Lemma topExitStep_prefix stepStats (pre suf : list StepStats.t) :
  (∀ i s, stepStats !! i = Some s → StepStats.stepNumber s = Z.of_nat i) →
  Forall (λ s, is_finite (rate s) = true) stepStats →
  stepStats = pre ++ suf →
  pre ≠ [] →
  ∃ (m : nat) (best : StepStats.t),
    foldl (higherDropOff stepStats) 0 pre = Z.of_nat m ∧
    (m < length pre)%nat ∧
    stepStats !! m = Some best ∧
    ∀ i s, (i < length pre)%nat → stepStats !! i = Some s →
           gt (rate s) (rate best) = false ∧
           ((i < m)%nat → gt (rate best) (rate s) = true).
Proof.
  intros Hpos Hfin. rewrite Forall_forall in Hfin.
  assert (Hfin' : ∀ i s, stepStats !! i = Some s → is_finite (rate s) = true).
  { intros i s Hs. apply Hfin. by eapply list_elem_of_lookup_2. }
  revert suf. induction pre as [|x pre IH] using rev_ind; intros suf Hsplit Hne; [done |].
  assert (Hx : stepStats !! length pre = Some x).
  { rewrite Hsplit, <- (assoc_L (++)). simpl. by rewrite list_lookup_middle. }
  rewrite foldl_app. cbn [foldl]. rewrite length_app. cbn [length].
  destruct (decide (pre = [])) as [->|Hpre].
  - simpl in *. exists 0%nat, x. unfold higherDropOff.
    change 0 with (Z.of_nat 0). rewrite at_index_of_nat, Hx. cbn [fmap option_fmap option_map].
    rewrite or_zero_finite by by eapply Hfin'. rewrite gt_irrefl.
    split_and!; [done | lia | done |].
    intros i s Hi Hs. assert (i = 0%nat) as -> by lia.
    rewrite Hx in Hs. injection Hs as <-. split; [apply gt_irrefl | lia].
  - destruct (IH (x :: suf)) as (m & best & Hm & Hlt & Hbest & Hmax).
    { by rewrite Hsplit, <- (assoc_L (++)). }
    { done. }
    rewrite Hm. unfold higherDropOff.
    rewrite at_index_of_nat, Hbest. cbn [fmap option_fmap option_map].
    rewrite or_zero_finite by by eapply Hfin'.
    destruct (gt (rate x) (rate best)) eqn:Hgt.
    + exists (length pre), x. split_and!; [by eapply Hpos | lia | done |].
      intros i s Hi Hs. destruct (decide (i = length pre)) as [->|Hi'].
      * rewrite Hx in Hs. injection Hs as <-. split; [apply gt_irrefl | lia].
      * destruct (Hmax i s) as [Hle _]; [lia | done |].
        destruct (gt_le_lt (rate s) (rate best) (rate x)) as [H1 H2];
          [by eapply Hfin' | by eapply Hfin' | by eapply Hfin' | done | done |].
        by split.
    + exists m, best. split_and!; [done | lia | done |].
      intros i s Hi Hs. destruct (decide (i = length pre)) as [->|Hi'].
      * rewrite Hx in Hs. injection Hs as <-. split; [done | lia].
      * apply Hmax; [lia | done].
Qed.

(** When the statistics list the steps 0, 1, 2, ... without a gap, so
    that a step number is also a position in the list, and the rates are
    finite, [topExitStep] is the first step with the highest drop-off
    rate; it is 0 for an empty list. *)
Theorem topExitStep_spec stepStats :
  (∀ i s, stepStats !! i = Some s → StepStats.stepNumber s = Z.of_nat i) →
  Forall (λ s, is_finite (rate s) = true) stepStats →
  (stepStats = [] → topExitStep stepStats = 0) ∧
  (stepStats ≠ [] →
   ∃ (m : nat) (best : StepStats.t),
     topExitStep stepStats = Z.of_nat m ∧
     stepStats !! m = Some best ∧
     ∀ i s, stepStats !! i = Some s →
            gt (rate s) (rate best) = false ∧
            ((i < m)%nat → gt (rate best) (rate s) = true)).
Proof.
  intros Hpos Hfin. split; [by intros -> |]. intros Hne.
  destruct (topExitStep_prefix stepStats stepStats [] Hpos Hfin) as (m & best & Hm & _ & Hbest & Hmax);
    [by rewrite app_nil_r | done |].
  exists m, best. split_and!; [done..|].
  intros i s Hs. apply Hmax; [by eapply lookup_lt_Some | done].
Qed.

End TopExitStep.

Section TopExitStepExample.

Import Dashboard Examples.

(** [topExitStep_spec] on three steps with the rates 10, 50 and 50. *)
Lemma topExitStep_spec_witness :
  (∀ i s, [stats 0 10; stats 1 50; stats 2 50] !! i = Some s →
          StepStats.stepNumber s = Z.of_nat i) ∧
  Forall (λ s, is_finite (StepStats.dropOffRate s) = true)
    [stats 0 10; stats 1 50; stats 2 50] ∧
  ∃ (m : nat) (best : StepStats.t),
    topExitStep [stats 0 10; stats 1 50; stats 2 50] = Z.of_nat m ∧
    [stats 0 10; stats 1 50; stats 2 50] !! m = Some best ∧
    ∀ i s, [stats 0 10; stats 1 50; stats 2 50] !! i = Some s →
           gt (StepStats.dropOffRate s) (StepStats.dropOffRate best) = false ∧
           ((i < m)%nat →
            gt (StepStats.dropOffRate best) (StepStats.dropOffRate s) = true).
Proof.
  assert (Hpos : ∀ i s, [stats 0 10; stats 1 50; stats 2 50] !! i = Some s →
                        StepStats.stepNumber s = Z.of_nat i).
  { intros [|[|[|i]]] s; simpl; intros [= <-]; reflexivity. }
  assert (Hfin : Forall (λ s, is_finite (StepStats.dropOffRate s) = true)
                   [stats 0 10; stats 1 50; stats 2 50]).
  { repeat constructor. }
  split; [exact Hpos |]. split; [exact Hfin |].
  apply (topExitStep_spec _ Hpos Hfin). discriminate.
Defined.

End TopExitStepExample.

(** ** Sessions page: what the filter and the sort keep *)

Section SessionsPageFacts.

Import SessionsPage.

Variable getTime : string → number.

(** Sorting neither loses nor repeats a session, whatever the key and the
    order, also by dates that cannot be read: the list shown is a
    rearrangement of the sessions that pass the filters. *)
Theorem filterAndSortSessions_keeps (st : State) :
  filterAndSortSessions getTime st ≡ₚ filtered st ∧
  (∀ s, s ∈ filterAndSortSessions getTime st ↔ s ∈ sessions st ∧ matches st s = true) ∧
  (length (filterAndSortSessions getTime st) <= length (sessions st))%nat.
Proof.
  assert (Hp : filterAndSortSessions getTime st ≡ₚ filtered st)
    by apply sort_Permutation.
  split_and!; [done | |].
  - intros s. rewrite Hp. unfold filtered. rewrite list_elem_of_filter. tauto.
  - rewrite Hp. apply length_filter.
Qed.

(** Sorted by duration, the list shown is in ascending order of
    [timeSpent] (a missing one counting as 0), in descending order for
    ['desc']; sessions with the same duration stay in the order in which
    they were loaded, in both directions. *)
Theorem duration_sorted_stable (st : State) (d : Z) :
  StronglySorted (λ a b, durationOf a <= durationOf b)
    (filterAndSortSessions getTime (withSort st duration asc)) ∧
  StronglySorted (λ a b, durationOf b <= durationOf a)
    (filterAndSortSessions getTime (withSort st duration desc)) ∧
  filter (λ s, durationOf s = d) (filterAndSortSessions getTime (withSort st duration asc))
    = filter (λ s, durationOf s = d) (filtered st) ∧
  filter (λ s, durationOf s = d) (filterAndSortSessions getTime (withSort st duration desc))
    = filter (λ s, durationOf s = d) (filtered st).
Proof.
  split_and!; [apply sorted_asc | apply sorted_desc | |].
  - apply (sort_filter_key _ durationOf), compare_duration_asc.
  - unfold filterAndSortSessions.
    transitivity (filter (λ s, - durationOf s = - d)
                    (JsArray.sort (compareSessions getTime duration desc)
                                  (filtered (withSort st duration desc)))).
    { apply list_filter_iff. intros s. lia. }
    rewrite (sort_filter_key _ (λ s, - durationOf s)) by apply compare_duration_desc.
    apply list_filter_iff. intros s. lia.
Qed.

Lemma includes_empty (s : string) : includes s EmptyString = true.
Proof. by destruct s. Qed.

(** A session that has not ended is shown only while the status filter is
    ['all']: no value of the filter selects the sessions in progress.
    With an empty search and both filters on ['all'] every session is
    shown. *)
Theorem matches_in_progress (st : State) (s : SessionWithDetails) :
  (UserSession.exitReason (base s) = None → statusFilter st ≠ "all" →
   matches st s = false) ∧
  (searchTerm st = EmptyString → statusFilter st = "all" → deviceFilter st = "all" →
   matches st s = true).
Proof.
  unfold matches. split.
  - intros Hr Hall. rewrite Hr. simpl.
    destruct (String.eqb_spec (statusFilter st) "all"); [done |].
    by rewrite andb_false_r.
  - intros -> -> ->. simpl. by rewrite includes_empty.
Qed.

End SessionsPageFacts.

Section FormatTimeFacts.

(** Between one minute and one hour the page's own [formatTime] prints
    what the shared one prints; below one minute it prints a leading
    0m that the shared one leaves out. *)
Theorem formatTime_pages_agree (seconds : Z) :
  0 <= seconds < 3600 →
  SessionsPage.formatTime seconds =
    (if seconds <? 60 then "0m " +:+ AdminUtils.formatTime seconds
     else AdminUtils.formatTime seconds).
Proof.
  intros [H0 H1]. unfold SessionsPage.formatTime, AdminUtils.formatTime.
  destruct (Z.ltb_spec seconds 60) as [Hlt|Hge].
  - rewrite Z.div_small by lia. rewrite Z.rem_small by lia. reflexivity.
  - by rewrite (proj2 (Z.ltb_lt (seconds / 60) 60)) by (apply Z.div_lt_upper_bound; lia).
Qed.

(** [formatTime_pages_agree] at two minutes and five seconds. *)
Lemma formatTime_pages_agree_witness :
  0 <= 125 < 3600 ∧
  SessionsPage.formatTime 125 =
    (if 125 <? 60 then "0m " +:+ AdminUtils.formatTime 125
     else AdminUtils.formatTime 125).
Proof.
  split; [lia |]. apply (formatTime_pages_agree 125). lia.
Defined.

End FormatTimeFacts.

(** ** The session recorder: what it keeps and what it sends *)

Section RecorderFrame.

Import Recorder.

Context {Env error : Type}.
Variable addDoc : string → DocData → Env → completion error string * Env.
Variable updateDoc : string → SessionUpdate → Env → completion error unit * Env.
Variable now : Env → Z.
Variable toISOString : Z → string.
Variable navigator_userAgent : Env → string.

Implicit Types (s : State Env error).

Local Abbreviation initializeSession :=
  (Recorder.initializeSession addDoc now toISOString navigator_userAgent).
Local Abbreviation trackStepEnter := (Recorder.trackStepEnter addDoc now toISOString).
Local Abbreviation trackStepAnswer := (Recorder.trackStepAnswer addDoc now toISOString).
Local Abbreviation trackStepExit :=
  (Recorder.trackStepExit addDoc updateDoc now toISOString).
Local Abbreviation updateFormData := (Recorder.updateFormData updateDoc).

Ltac run_recorder :=
  unfold Recorder.initializeSession, Recorder.trackStepEnter,
    Recorder.trackStepAnswer, Recorder.trackStepExit, Recorder.updateFormData,
    updateSession, bind, try_catch, call, log, read, get_this, set_this, ret;
  cbn;
  repeat match goal with
    | |- context [addDoc ?c ?d ?e] => destruct (addDoc c d e) as [[?|?] ?]; cbn
    | |- context [updateDoc ?i ?u ?e] => destruct (updateDoc i u e) as [[?|?] ?]; cbn
    | |- context [match sessionDocId ?t with _ => _ end] =>
        destruct (sessionDocId t) eqn:?; cbn
    end.

(** Whatever the store does, answering, leaving a step and updating the
    form data leave the recorder's own fields as they were: the recorder
    keeps no trace of an exit it has tracked.  Entering a step sets the
    current step and restarts the step timer and nothing else, and no
    call but [initializeSession] touches the document id. *)
Theorem recorder_fields s step stepName answer reason formData :
  this (trackStepAnswer step stepName answer s).2 = this s ∧
  this (trackStepExit step stepName reason s).2 = this s ∧
  this (updateFormData formData s).2 = this s ∧
  this (trackStepEnter step stepName s).2 =
    {| sessionId := sessionId (this s);
       startTime := startTime (this s);
       stepStartTime := now (env s);
       currentStep := step;
       sessionDocId := sessionDocId (this s) |} ∧
  sessionId (this (initializeSession s).2) = sessionId (this s) ∧
  startTime (this (initializeSession s).2) = startTime (this s) ∧
  stepStartTime (this (initializeSession s).2) = stepStartTime (this s) ∧
  currentStep (this (initializeSession s).2) = currentStep (this s).
Proof. split_and!; run_recorder; reflexivity. Qed.

(** [initializeSession] stores the id of the new document when the write
    succeeds and leaves the id unset otherwise; and while the id is
    unset, [updateFormData] sends nothing to the store and [trackStepExit]
    sends its step event only, so that every session update is lost. *)
Theorem updates_need_document s step stepName reason formData :
  sessionDocId (this (initializeSession s).2) =
    match (addDoc "sessions"
             (SessionData
                {| UserSession.id := None;
                   UserSession.sessionId := sessionId (this s);
                   UserSession.timestamp := toISOString (now (env s));
                   UserSession.userAgent := navigator_userAgent (env s);
                   UserSession.currentStep := Some 0;
                   UserSession.formData := [];
                   UserSession.timeSpent := Some 0;
                   UserSession.exitReason := None;
                   UserSession.createdAt := serverTimestamp;
                   UserSession.updatedAt := serverTimestamp |})
             (env s)).1 with
    | Return docId => Some docId
    | Throw _ => sessionDocId (this s)
    end ∧
  (sessionDocId (this s) = None →
   updateFormData formData s =
     (Return (),
      {| this := this s;
         env := env s;
         console := console s ++ [console_error "Session document ID not available" None] |}) ∧
   env (trackStepExit step stepName reason s).2 =
     (addDoc "stepAnalytics"
        (AnalyticsData (exitEvent toISOString (this s) (now (env s)) step stepName reason))
        (env s)).2).
Proof.
  split.
  - run_recorder; reflexivity.
  - intros Hid. split.
    + unfold Recorder.updateFormData, updateSession, bind, get_this. cbn.
      rewrite Hid. reflexivity.
    + unfold Recorder.trackStepExit, updateSession, bind, try_catch, call, log, read,
        get_this, ret, exitEvent. cbn.
      match goal with
      | |- context [addDoc ?c ?d ?e] => destruct (addDoc c d e) as [[?|?] ?]; cbn
      end; rewrite Hid; reflexivity.
Qed.

End RecorderFrame.

Section RecorderSpy.

Import Recorder Examples Spec.

Variable toISOString : Z → string.

Implicit Types (s : State Spy string).

Local Abbreviation trackStepAnswer := (Recorder.trackStepAnswer spy_addDoc clock toISOString).
Local Abbreviation trackStepExit :=
  (Recorder.trackStepExit spy_addDoc spy_updateDoc clock toISOString).
Local Abbreviation hidden_then_unloaded :=
  (bind Spy string
     (on_visibilitychange spy_addDoc spy_updateDoc clock toISOString true)
     (λ _, on_beforeunload spy_addDoc spy_updateDoc clock toISOString)).

Lemma stepEvents_app (docs docs' : list (string * DocData)) :
  stepEvents (docs ++ docs') = stepEvents docs ++ stepEvents docs'.
Proof. unfold stepEvents. apply omap_app. Qed.

Lemma countAction_app (act : Action) (events events' : list StepAnalytics.t) :
  countAction act (events ++ events') = countAction act events + countAction act events'.
Proof. unfold countAction. rewrite filter_app, length_app. lia. Qed.

Lemma eventsOf_app (k : Z) (events events' : list StepAnalytics.t) :
  eventsOf k (events ++ events') = eventsOf k events ++ eventsOf k events'.
Proof. apply filter_app. Qed.

(** Nothing keeps the two listeners from both firing: when the page is
    hidden and then unloaded, two exit events are written for the current
    step, both as abandoned, and the step counts two exits more. *)
Theorem abandonment_recorded_twice s :
  let s' := (hidden_then_unloaded s).2 in
  let self := this s in
  let leave :=
    exitEvent toISOString self (clock (env s)) (currentStep self)
      (getStepName (currentStep self)) abandoned in
  stepEvents (written (env s')) = stepEvents (written (env s)) ++ [leave; leave] ∧
  countAction exit (eventsOf (currentStep self) (stepEvents (written (env s')))) =
  countAction exit (eventsOf (currentStep self) (stepEvents (written (env s)))) + 2.
Proof.
  cbv zeta.
  assert (H : stepEvents (written (env (hidden_then_unloaded s).2)) =
              stepEvents (written (env s)) ++
              [exitEvent toISOString (this s) (clock (env s)) (currentStep (this s))
                 (getStepName (currentStep (this s))) abandoned;
               exitEvent toISOString (this s) (clock (env s)) (currentStep (this s))
                 (getStepName (currentStep (this s))) abandoned]).
  { unfold on_visibilitychange, on_beforeunload, Recorder.trackStepExit, updateSession,
      bind, try_catch, call, log, read, get_this, ret, spy_addDoc, spy_updateDoc, exitEvent.
    cbn -[stepEvents].
    destruct (sessionDocId (this s)) eqn:Hid;
      repeat (cbn -[stepEvents]; rewrite ?Hid);
      rewrite !stepEvents_app, <- (assoc_L (++)); reflexivity. }
  split; [exact H |].
  rewrite H, eventsOf_app, countAction_app. f_equal.
  unfold eventsOf. rewrite !filter_cons, filter_nil. cbn [exitEvent StepAnalytics.step].
  rewrite !decide_True by done. reflexivity.
Qed.

(** The time an answer took is stored in whole seconds, rounded: an
    answer given less than half a second after the step was entered is
    written with [timeSpent] 0, which [getStepStats] then treats as
    absent. *)
Theorem quick_answer_written_as_zero s step stepName answer :
  ∃ event,
    stepEvents (written (env (trackStepAnswer step stepName answer s).2)) =
      stepEvents (written (env s)) ++ [event] ∧
    StepAnalytics.action event = Types.answer ∧
    StepAnalytics.timeSpent event =
      Some (round_seconds (clock (env s) - stepStartTime (this s))) ∧
    (AnalyticsQueries.truthy (StepAnalytics.timeSpent event) = false ↔
     -500 <= clock (env s) - stepStartTime (this s) < 500).
Proof.
  eexists. split_and!.
  - unfold Recorder.trackStepAnswer, bind, try_catch, call, log, read, get_this, ret,
      spy_addDoc. cbn -[stepEvents]. rewrite stepEvents_app. reflexivity.
  - reflexivity.
  - reflexivity.
  - cbn. unfold round_seconds.
    destruct (Z.eqb_spec ((clock (env s) - stepStartTime (this s) + 500) / 1000) 0)
      as [H0|H0]; simpl.
    + split; [intros _ | done].
      apply Z.div_small_iff in H0; lia.
    + split; [done |]. intros Hhalf. exfalso. apply H0.
      apply Z.div_small. lia.
Qed.

End RecorderSpy.

(** ** The spreadsheet client *)

Section SheetsFacts.

Import Recorder GoogleSheets.

Context {Env error : Type}.
Variable values_append : string → list row → Env → completion error unit * Env.
Variable spreadsheets_get : Env → completion error (list string) * Env.
Variable batchUpdate_addSheet : string → Env → completion error unit * Env.
Variable values_get : string → Env → completion error (option (list row)) * Env.
Variable values_update : string → list row → Env → completion error unit * Env.
Variable values_clear : string → Env → completion error unit * Env.

Implicit Types (s : State Env error).

Local Abbreviation appendToSheet := (GoogleSheets.appendToSheet values_append).
Local Abbreviation createSheetsIfNotExist :=
  (GoogleSheets.createSheetsIfNotExist values_append spreadsheets_get batchUpdate_addSheet).
Local Abbreviation readFromSheet := (GoogleSheets.readFromSheet values_get).
Local Abbreviation updateSheet := (GoogleSheets.updateSheet values_update).
Local Abbreviation clearSheet := (GoogleSheets.clearSheet values_clear).
Local Abbreviation createIfMissing :=
  (createIfMissing Env error values_append batchUpdate_addSheet).

Ltac run_client :=
  unfold GoogleSheets.appendToSheet, GoogleSheets.readFromSheet,
    GoogleSheets.updateSheet, GoogleSheets.clearSheet, rethrown, log_and_rethrow,
    GoogleSheets.try_catch, GoogleSheets.bind, GoogleSheets.call, GoogleSheets.log,
    GoogleSheets.throw, GoogleSheets.ret;
  cbn;
  repeat match goal with
    | |- context [values_append ?r ?v ?e] => destruct (values_append r v e) as [[?|?] ?]; cbn
    | |- context [values_get ?r ?e] => destruct (values_get r e) as [[?|?] ?]; cbn
    | |- context [values_update ?r ?v ?e] => destruct (values_update r v e) as [[?|?] ?]; cbn
    | |- context [values_clear ?r ?e] => destruct (values_clear r e) as [[?|?] ?]; cbn
    end.

Lemma createIfMissing_console (existing : list string) (sheet : string * row) s :
  console (createIfMissing existing sheet s).2 = console s.
Proof.
  unfold GoogleSheets.createIfMissing, GoogleSheets.bind, GoogleSheets.call,
    GoogleSheets.ret.
  case_bool_decide; [done |]. cbn.
  destruct (batchUpdate_addSheet sheet.1 (env s)) as [[?|?] ?]; cbn; [|done].
  by destruct (values_append _ _ _) as [[?|?] ?].
Qed.

Lemma for_of_console (existing : list string) (sheets : list (string * row)) s :
  console (for_of Env error sheets (createIfMissing existing) s).2 = console s.
Proof.
  revert s. induction sheets as [|sheet sheets IH]; intros s; [done |].
  cbn [for_of]. unfold GoogleSheets.bind.
  pose proof (createIfMissing_console existing sheet s) as H.
  destruct (createIfMissing existing sheet s) as [[?|?] s']; cbn in *; [|done].
  by rewrite IH.
Qed.

Lemma for_of_present (existing : list string) (sheets : list (string * row)) s :
  Forall (λ sheet, sheet.1 ∈ existing) sheets →
  for_of Env error sheets (createIfMissing existing) s = (Return (), s).
Proof.
  induction 1 as [|sheet sheets Hin _ IH]; [done |].
  cbn [for_of]. unfold GoogleSheets.bind, GoogleSheets.createIfMissing at 1.
  rewrite bool_decide_true by done. exact IH.
Qed.

Lemma try_rethrow {A : Type} (body : M Env error A) (message : string) s :
  console (body s).2 = console s →
  rethrown message (GoogleSheets.try_catch Env error body (log_and_rethrow Env error message) s) s.
Proof.
  unfold rethrown, GoogleSheets.try_catch, log_and_rethrow, GoogleSheets.bind,
    GoogleSheets.log, GoogleSheets.throw.
  destruct (body s) as [[a|e] s']; cbn; [done | by intros ->].
Qed.


(** [createSheetsIfNotExist] reads the titles once.  When the three
    sheets are all there it asks the service for nothing more, so that a
    second call changes nothing; and when reading the titles fails it
    creates nothing. *)
Theorem createSheetsIfNotExist_present s :
  (∀ existing env',
     spreadsheets_get (env s) = (Return existing, env') →
     "Sessions" ∈ existing → "Step Analytics" ∈ existing → "Session Updates" ∈ existing →
     createSheetsIfNotExist s = (Return (), {| env := env'; console := console s |})) ∧
  (∀ e env',
     spreadsheets_get (env s) = (Throw e, env') →
     createSheetsIfNotExist s =
       (Throw e,
        {| env := env';
           console := console s ++ [console_error "Error creating sheets:" (Some e)] |})).
Proof.
  split.
  - intros existing env' Hget H1 H2 H3.
    unfold GoogleSheets.createSheetsIfNotExist, GoogleSheets.try_catch,
      GoogleSheets.bind at 1, GoogleSheets.call.
    rewrite Hget. cbn -[for_of requiredSheets]. rewrite for_of_present; [done |].
    unfold requiredSheets. by repeat constructor.
  - intros e env' Hget.
    unfold GoogleSheets.createSheetsIfNotExist, GoogleSheets.try_catch,
      GoogleSheets.bind at 1, GoogleSheets.call.
    by rewrite Hget.
Qed.

End SheetsFacts.

(** ** Two readings of a session in progress *)

Section InProgress.

Import AnalyticsQueries Spec.

Lemma neither_split (sessions : list UserSession.t) :
  length (filter (λ s, UserSession.exitReason s ≠ Some completed
                       ∧ UserSession.exitReason s ≠ Some abandoned) sessions) =
  (length (filter (λ s, UserSession.exitReason (SessionsPage.base s) = None)
                  (SessionsPage.withDeviceInfo <$> sessions))
   + length (endedWith ineligible sessions))%nat.
Proof.
  unfold endedWith. induction sessions as [|s sessions IH]; [done |].
  rewrite fmap_cons, !filter_cons. cbn [SessionsPage.withDeviceInfo SessionsPage.base].
  destruct (UserSession.exitReason s) as [[]|];
    repeat case_decide; try done; cbn [length]; try lia;
    exfalso; intuition congruence.
Qed.

(** The analytics page and the sessions page do not count the same
    sessions as unfinished: the chart's in progress value is the number of
    active sessions of the sessions page plus the number of ineligible
    sessions. *)
Theorem in_progress_vs_active (sessions : list UserSession.t) :
  AnalyticsPage.statusChartData (getAnalyticsSummary sessions) !! 2%nat =
  Some ("In Progress",
        SessionsPage.activeSessions (SessionsPage.withDeviceInfo <$> sessions)
        + Z.of_nat (length (endedWith ineligible sessions))).
Proof.
  destruct (summary_counts sessions) as (Ht & Hc & Ha).
  unfold AnalyticsPage.statusChartData. cbn [lookup list_lookup].
  rewrite Ht, Hc, Ha. do 2 f_equal.
  unfold SessionsPage.activeSessions.
  pose proof (length_three_way sessions). pose proof (neither_split sessions). lia.
Qed.

End InProgress.
